(** * Habit2026: the month-scoped data model of the habit tracker

    A shallow embedding of the data model and of the pure parts of
    [App] (month loading and carry-over, the mutation handlers, the
    derived statistics and the week grouping), followed by the
    properties of the specification that concern them. *)

From Stdlib Require Import ZArith Lia Bool Ascii String.
From Stdlib Require Import Floats.SpecFloat.
From stdpp Require Import base list strings pretty.
From Equations Require Import Equations.

Open Scope string_scope.
Open Scope list_scope.

(** The model lives in one name space of its own: a qualified name
    such as [Row.goal] or [Stat.day] then always means the field of
    that record, whatever the name of the library that holds this
    file, and never the like-named field of [Habit] or [MentalState]. *)
Module HabitTracker.

(** ** JavaScript values used by the program *)

Module JS.

(** *** Arrays

    A JavaScript array may have empty slots.  An array of [A] is a
    [list (option A)]: [None] is a slot that reads as [undefined] (a
    hole, a stored [undefined], or the [null] that [JSON.stringify]
    writes for either and [JSON.parse] reads back).  Every operation of
    the program treats the three alike: [!x], [x || false], [x ? 1 : 0]
    and [Boolean(x)] see a falsy value, property access throws, and
    object spread copies nothing. *)

Abbreviation array A := (list (option A)) (only parsing).

(** [a[i]]: out of range reads [undefined]. *)
Definition get {A} (a : array A) (i : nat) : option A :=
  match a !! i with
  | Some c => c
  | None => None
  end.

(** [a[i] = v]: in range the slot is replaced; past the end the array
    grows to length [i + 1], the slots in between staying empty. *)
Definition set {A} (i : nat) (v : A) (a : array A) : array A :=
  if decide (i < length a) then <[i := Some v]> a
  else a ++ replicate (i - length a) None ++ [Some v].

(** [Array(n).fill(v)]. *)
Definition fill {A} (n : nat) (v : A) : array A := replicate n (Some v).

(** [Array.from({ length: n }, (_, i) => f i)], and likewise
    [Array(n).fill(x).map((_, i) => f i)]: the callback runs at every
    index [0 .. n-1]. *)
Definition tabulate {A} (n : nat) (f : nat -> A) : array A :=
  fmap (fun i => Some (f i)) (seq 0 n).

(** Truthiness of a slot holding a boolean. *)
Definition truthy (c : option bool) : bool :=
  match c with
  | Some b => b
  | None => false
  end.

(** [a.filter(Boolean).length] and [a.filter(c => c).length]. *)
Definition count_truthy (a : array bool) : Z :=
  Z.of_nat (length (filter (fun c => truthy c = true) a)).

(** *** Numbers

    Counts, indices and the integers read from the mood and motivation
    inputs are integers far below 2^53, on which the arithmetic of
    doubles is exact: they are modelled in [Z] and [nat].  The two
    percentages are quotients, so they are computed on IEEE 754
    binary64 values, with the operations of [SpecFloat]. *)

Definition prec : Z := 53.
Definition emax : Z := 1024.

Definition Number : Type := spec_float.

Definition of_Z (z : Z) : Number := binary_normalize prec emax z 0 false.
Definition div (x y : Number) : Number := SFdiv prec emax x y.
Definition mul (x y : Number) : Number := SFmul prec emax x y.

(** [Math.round]: the integer closest to [x], ties going up; a result
    of zero keeps the sign of [x]; NaN and the infinities are returned
    unchanged.  For a finite [x = ±m·2^e] with [e < 0] the result is
    [floor((±2m + 2^-e) / 2^(1-e))]. *)
Definition Math_round (x : Number) : Number :=
  match x with
  | S754_finite s m e =>
      if (0 <=? e)%Z then x
      else
        let a := cond_Zopp s (Z.pos m) in
        let n := Z.shiftr (2 * a + 2 ^ (- e)) (1 - e) in
        if (n =? 0)%Z then S754_zero s else of_Z n
  | _ => x
  end.

(** [Math.max] and [Math.min] on integers. *)
Definition Math_max (x y : Z) : Z := Z.max x y.
Definition Math_min (x y : Z) : Z := Z.min x y.

(** *** Strings and [parseInt]

    Strings are sequences of UTF-8 bytes.  [parseInt(s)] skips leading
    white space and line terminators, reads an optional sign, an
    optional [0x]/[0X] prefix, and the longest run of digits of the
    radix; with no digit the result is NaN, here [None].  The integer
    read is returned exactly: the program only clamps it to [0, 10],
    which gives the same result as on the double nearest to it, and
    [-0] behaves as [0] under [|| 0]. *)

Definition byte_is (n : N) (c : ascii) : bool := (N_of_ascii c =? n)%N.

(** Length in bytes of the white space or line terminator that starts
    [s], or [0] when there is none: TAB, LF, VT, FF, CR, SP; U+00A0;
    U+1680; U+2000..U+200A, U+2028, U+2029, U+202F; U+205F; U+3000;
    U+FEFF. *)
Definition white_prefix (s : string) : nat :=
  match s with
  | String c r =>
      let n := N_of_ascii c in
      if ((9 <=? n) && (n <=? 13) || (n =? 32))%N then 1
      else match r with
           | String c1 r1 =>
               if (byte_is 194 c && byte_is 160 c1) then 2
               else match r1 with
                    | String c2 _ =>
                        let n2 := N_of_ascii c2 in
                        if byte_is 225 c && byte_is 154 c1 && byte_is 128 c2 then 3
                        else if byte_is 226 c && byte_is 128 c1
                                && ((128 <=? n2) && (n2 <=? 138)
                                    || (n2 =? 168) || (n2 =? 169) || (n2 =? 175))%N then 3
                        else if byte_is 226 c && byte_is 129 c1 && byte_is 159 c2 then 3
                        else if byte_is 227 c && byte_is 128 c1 && byte_is 128 c2 then 3
                        else if byte_is 239 c && byte_is 187 c1 && byte_is 191 c2 then 3
                        else 0
                    | EmptyString => 0
                    end
           | EmptyString => 0
           end
  | EmptyString => 0
  end.

Fixpoint drop_bytes (n : nat) (s : string) : string :=
  match n, s with
  | S k, String _ r => drop_bytes k r
  | _, _ => s
  end.

(** Each round removes one white space character, so [fuel] equal to
    the length of the string is enough to remove them all. *)
Fixpoint trimStart_aux (fuel : nat) (s : string) : string :=
  match fuel with
  | O => s
  | S k =>
      match white_prefix s with
      | O => s
      | n => trimStart_aux k (drop_bytes n s)
      end
  end.

Definition trimStart (s : string) : string := trimStart_aux (String.length s) s.

(** Value of [c] as a digit of radix [R] (10 or 16). *)
Definition digit_value (R : Z) (c : ascii) : option Z :=
  let n := Z.of_N (N_of_ascii c) in
  if ((48 <=? n) && (n <=? 57))%Z then Some (n - 48)%Z
  else if (R =? 16)%Z && (97 <=? n)%Z && (n <=? 102)%Z then Some (n - 87)%Z
  else if (R =? 16)%Z && (65 <=? n)%Z && (n <=? 70)%Z then Some (n - 55)%Z
  else None.

(** The longest prefix of [s] made of digits of radix [R]. *)
Fixpoint digits (R : Z) (s : string) : list Z :=
  match s with
  | String c r =>
      match digit_value R c with
      | Some d => d :: digits R r
      | None => []
      end
  | EmptyString => []
  end.

Definition parseInt (s : string) : option Z :=
  let s1 := trimStart s in
  let '(sign, s2) :=
    match s1 with
    | String "-" r => ((-1)%Z, r)
    | String "+" r => (1%Z, r)
    | _ => (1%Z, s1)
    end in
  let '(R, s3) :=
    match s2 with
    | String "0" (String "x" r) => (16%Z, r)
    | String "0" (String "X" r) => (16%Z, r)
    | _ => (10%Z, s2)
    end in
  match digits R s3 with
  | [] => None
  | ds => Some (sign * fold_left (fun acc d => acc * R + d) ds 0)%Z
  end.

(** [x || 0] for a number that may be NaN. *)
Definition or_zero (x : option Z) : Z :=
  match x with
  | Some n => n
  | None => 0
  end.

End JS.

(** ** Data model (types.ts) *)

Record Habit := mkHabit {
  id : string;
  name : string;
  icon : string;
  goal : Z;
  checks : JS.array bool  (* one slot per day of the month *)
}.

(** A [MentalState] object.  A field is [None] when the object lacks
    the property: [handleMentalChange] builds such an object when it
    writes past the end of the array. *)
Record MentalState := mkMentalState {
  day : option Z;
  mood : option Z;
  motivation : option Z
}.

Record MonthData := mkMonthData {
  habits : list Habit;
  mentalState : JS.array MentalState;
  lastUpdated : Z
}.

(** The two values of the [field] argument of [handleMentalChange]. *)
Inductive Field := Mood | Motivation.

(** ** constants.ts *)

Module Template.
(** [Omit<Habit, 'checks'>] *)
Record t := mk {
  id : string;
  name : string;
  icon : string;
  goal : Z
}.
End Template.

Definition DEFAULT_HABITS_TEMPLATE : list Template.t :=
  [ Template.mk "1" "Wake up at 05:00" "⏰" 30;
    Template.mk "2" "Gym" "💪" 30;
    Template.mk "3" "Reading / Learning" "📖" 30;
    Template.mk "4" "Day Planning" "📝" 30;
    Template.mk "5" "Budget Tracking" "💰" 30;
    Template.mk "6" "Project Work" "🚀" 30;
    Template.mk "7" "No Alcohol" "🍷" 30;
    Template.mk "8" "Social Media Detox" "🌿" 30;
    Template.mk "9" "Goal Journaling" "📔" 30;
    Template.mk "10" "Cold Shower" "🚿" 30 ].

(** ** Utils *)

(** [{ ...h, checks: c }] *)
Definition with_checks (h : Habit) (c : JS.array bool) : Habit :=
  {| id := id h; name := name h; icon := icon h; goal := goal h; checks := c |}.

(** [{ ...t, checks: c }] for a template entry [t]. *)
Definition of_template (t : Template.t) (c : JS.array bool) : Habit :=
  {| id := Template.id t; name := Template.name t; icon := Template.icon t;
     goal := Template.goal t; checks := c |}.

(** [{ day: i + 1, mood: 0, motivation: 0 }] *)
Definition emptyEntry (i : nat) : MentalState :=
  {| day := Some (Z.of_nat i + 1)%Z; mood := Some 0%Z; motivation := Some 0%Z |}.

Definition generateEmptyMentalState (days : nat) : JS.array MentalState :=
  JS.tabulate days emptyEntry.

(** ** Loading a month (the first effect of [App]) *)

(** Reconciliation of the stored habits with the day count. *)
Definition adjustedHabits (daysInMonth : nat) (parsed_habits : list Habit) : list Habit :=
  fmap (fun h =>
         with_checks h
           (if decide (length (checks h) = daysInMonth) then checks h
            else JS.tabulate daysInMonth
                   (fun i => JS.truthy (JS.get (checks h) i) || false)))
      parsed_habits.

(** Outcome of [a.find(m => m.day === d)]: the callback reads [m.day],
    which throws a TypeError on an empty slot. *)
Inductive FindResult :=
| Found (m : MentalState)
| NotFound
| Throws.

Fixpoint find_day (d : Z) (a : JS.array MentalState) : FindResult :=
  match a with
  | [] => NotFound
  | None :: _ => Throws
  | Some m :: r =>
      match day m with
      | Some x => if (x =? d)%Z then Found m else find_day d r
      | None => find_day d r
      end
  end.

(** Reconciliation of the stored mental state; [None] when [find]
    throws. *)
Definition adjustedMental (daysInMonth : nat) (parsed_mentalState : JS.array MentalState)
  : option (JS.array MentalState) :=
  mapM (fun i =>
          match find_day (Z.of_nat i + 1) parsed_mentalState with
          | Found m => Some (Some m)
          | NotFound => Some (Some (emptyEntry i))
          | Throws => None
          end)
       (seq 0 daysInMonth).

(** The body of the loading effect.  [stored] and [prevStored] are the
    parsed contents of the storage entries read under [key] (the
    requested month) and [prevKey] (the month before it); [None]: no
    entry.  The result is the pair passed to [setHabits] and
    [setMentalState], or [None] when the effect throws. *)
Definition loadMonth (daysInMonth : nat) (stored prevStored : option MonthData)
  : option (list Habit * JS.array MentalState) :=
  match stored with
  | Some parsed =>
      let adjHabits := adjustedHabits daysInMonth (habits parsed) in
      match adjustedMental daysInMonth (mentalState parsed) with
      | Some adjMental => Some (adjHabits, adjMental)
      | None => None
      end
  | None =>
      let initialHabits :=
        match prevStored with
        | Some prevParsed =>
            fmap (fun h => with_checks h (JS.fill daysInMonth false)) (habits prevParsed)
        | None =>
            fmap (fun t => of_template t (JS.fill daysInMonth false)) DEFAULT_HABITS_TEMPLATE
        end in
      Some (initialHabits, generateEmptyMentalState daysInMonth)
  end.

(** ** Mutation handlers *)

(** [toggleCheck], as the updater passed to [setHabits].  [dayIndex]
    ranges over array indices, which is what the grid passes; a key
    that is not an array index is outside the model. *)
Definition toggleCheck (habitId : string) (dayIndex : nat) (prev : list Habit) : list Habit :=
  fmap (fun h =>
         if negb (String.eqb (id h) habitId) then h
         else
           let newChecks := checks h in
           let newChecks := JS.set dayIndex (negb (JS.truthy (JS.get newChecks dayIndex))) newChecks in
           with_checks h newChecks)
      prev.

(** The number stored by [handleMentalChange]. *)
Definition numVal (value : string) : Z :=
  if String.eqb value "" then 0%Z
  else JS.Math_min 10 (JS.Math_max 0 (JS.or_zero (JS.parseInt value))).

(** [{ ...o }]: spreading an empty slot copies no property. *)
Definition spread (o : option MentalState) : MentalState :=
  match o with
  | Some m => m
  | None => {| day := None; mood := None; motivation := None |}
  end.

(** [{ ...m, [field]: v }] *)
Definition with_field (m : MentalState) (field : Field) (v : Z) : MentalState :=
  match field with
  | Mood => {| day := day m; mood := Some v; motivation := motivation m |}
  | Motivation => {| day := day m; mood := mood m; motivation := Some v |}
  end.

(** [handleMentalChange], as the updater passed to [setMentalState]. *)
Definition handleMentalChange (dayIndex : nat) (field : Field) (value : string)
    (prev : JS.array MentalState) : JS.array MentalState :=
  let newState := prev in
  JS.set dayIndex (with_field (spread (JS.get newState dayIndex)) field (numVal value)) newState.

(** ** Derived data *)

(** Arrays that the program builds with [Array.from] or [push] and
    never writes by index have no empty slot: they are plain lists. *)

Definition totalPossibleChecks (daysInMonth : nat) (habits : list Habit) : Z :=
  (Z.of_nat (length habits) * Z.of_nat daysInMonth)%Z.

Definition totalActualChecks (habits : list Habit) : Z :=
  fold_left (fun acc h => (acc + JS.count_truthy (checks h))%Z) habits 0%Z.

Module Stat.
Record t := mk {
  day : Z;
  done : Z;
  notDone : Z;
  percent : JS.Number
}.
End Stat.

(** The callback of [dailyStats] at day index [i]. *)
Definition dayStat (habits : list Habit) (i : nat) : Stat.t :=
  let doneCount :=
    fold_left (fun acc h => (acc + (if JS.truthy (JS.get (checks h) i) then 1 else 0))%Z)
              habits 0%Z in
  let notDoneCount := (Z.of_nat (length habits) - doneCount)%Z in
  let percent :=
    if (0 <? Z.of_nat (length habits))%Z
    then JS.Math_round
           (JS.mul (JS.div (JS.of_Z doneCount) (JS.of_Z (Z.of_nat (length habits))))
                   (JS.of_Z 100))
    else JS.of_Z 0 in
  {| Stat.day := Z.of_nat i + 1; Stat.done := doneCount;
     Stat.notDone := notDoneCount; Stat.percent := percent |}.

Definition dailyStats (daysInMonth : nat) (habits : list Habit) : list Stat.t :=
  fmap (dayStat habits) (seq 0 daysInMonth).

(** One row of the analysis sidebar. *)
Module Row.
Record t := mk {
  goal : Z;
  checkedCount : Z;
  percentage : JS.Number
}.
End Row.

Definition analysisRow (daysInMonth : nat) (habit : Habit) : Row.t :=
  let checkedCount := JS.count_truthy (checks habit) in
  let goal := Z.of_nat daysInMonth in
  let percentage :=
    if (0 <? goal)%Z
    then JS.mul (JS.div (JS.of_Z checkedCount) (JS.of_Z goal)) (JS.of_Z 100)
    else JS.of_Z 0 in
  {| Row.goal := goal; Row.checkedCount := checkedCount; Row.percentage := percentage |}.

(** ** Week grouping *)

Record Week := mkWeek {
  label : string;
  days : list nat
}.

(** The [while] loop of [weeks]: [w] is the array built so far.  An
    iteration that does not leave the loop advances [currentDay] by 7
    below [daysInMonth]. *)
Equations? weeks_loop (daysInMonth currentDay weekCount : nat) (w : list Week)
  : list Week by wf (daysInMonth - currentDay) lt :=
  weeks_loop daysInMonth currentDay weekCount w with decide (currentDay < daysInMonth) => {
    | right _ => w
    | left _ with decide (weekCount = 4) => {
        | left _ =>
            let remaining := daysInMonth - currentDay in
            let days := fmap (fun i => currentDay + i) (seq 0 remaining) in
            w ++ [ {| label := "Week " +:+ pretty weekCount; days := days |} ]
        | right _ =>
            weeks_loop daysInMonth (currentDay + 7) (weekCount + 1)
              (w ++ [ {| label := "Week " +:+ pretty weekCount;
                         days := fmap (fun i => currentDay + i) (seq 0 7) |} ])
      }
  }.
Proof. lia. Qed.

Definition weeks (daysInMonth : nat) : list Week := weeks_loop daysInMonth 0 1 [].

(** The day indices for which the grid renders a cell:
    [weeks.map(week => week.days.map(dIdx => ...))]. *)
Definition renderedDays (daysInMonth : nat) : list nat :=
  concat (fmap days (weeks daysInMonth)).

(** ** The state of [App] and its transitions *)

Module App.
Record state := mk {
  daysInMonth : nat;
  habits : list Habit;
  mentalState : JS.array MentalState
}.
End App.

(** [getDaysInMonth] returns the length of a calendar month. *)
Definition isMonthLength (d : nat) : Prop := 28 <= d <= 31.

(** States of [App] once the loading effect has run.  The handlers
    that call [setHabits] alone ([toggleCheck], [saveEditing],
    [confirmDelete], [addHabit], [moveHabit]) are covered by one
    transition that replaces the habit list by any other;
    [handleMentalChange] is called by the mood and motivation inputs,
    which exist for the rendered day indices only. *)
Inductive reachable : App.state -> Prop :=
| reach_load d stored prevStored hs ms :
    isMonthLength d ->
    loadMonth d stored prevStored = Some (hs, ms) ->
    reachable (App.mk d hs ms)
| reach_setHabits d hs ms hs' :
    reachable (App.mk d hs ms) ->
    reachable (App.mk d hs' ms)
| reach_mentalChange d hs ms dIdx field value :
    reachable (App.mk d hs ms) ->
    dIdx ∈ renderedDays d ->
    reachable (App.mk d hs (handleMentalChange dIdx field value ms)).

(** Entries are addressed both by array index and by day number: the
    array has one entry per day of the month, and the entry at index
    [i] is an object whose [day] is [i + 1]. *)
Definition aligned (daysInMonth : nat) (ms : JS.array MentalState) : Prop :=
  length ms = daysInMonth /\
  forall i, i < daysInMonth ->
    exists e, ms !! i = Some (Some e) /\ day e = Some (Z.of_nat i + 1)%Z.

(** ** The specification's formulas

    Definitions that follow the words of the specification, to be
    compared with the ones above. *)

(** [habitTotal(habit)]: count of [true] entries in [checks]. *)
Definition habitTotal (habit : Habit) : Z :=
  Z.of_nat (length (filter (fun c => c = Some true) (checks habit))).

(** [habitProgressPercent(habit, goal)]: [habitTotal / goal * 100]. *)
Definition habitProgressPercent (habit : Habit) (goal : Z) : JS.Number :=
  JS.mul (JS.div (JS.of_Z (habitTotal habit)) (JS.of_Z goal)) (JS.of_Z 100).


(** Count of habits with [checks[day] == true]. *)
Definition doneOn (habits : list Habit) (day : nat) : Z :=
  Z.of_nat (length (filter (fun h => checks h !! day = Some (Some true)) habits)).

(** The integer written by a string of decimal digits, read after
    [acc]; [None] when a character is not a decimal digit. *)
Fixpoint decimal (s : string) (acc : Z) : option Z :=
  match s with
  | EmptyString => Some acc
  | String c r =>
      match JS.digit_value 10 c with
      | Some d => decimal r (acc * 10 + d)
      | None => None
      end
  end.

(** ** Inputs of the examples *)


(** A default-template habit (goal 30) checked on each of the 31 days
    of its month. *)
Definition gym_all_of_31 : Habit := mkHabit "2" "Gym" "💪" 30 (JS.fill 31 true).

(** [n] habits, the first [k] of them checked on day index 0. *)
Definition first_checked (k n : nat) : list Habit :=
  fmap (fun j => mkHabit (pretty j) "h" "i" 30 [Some (bool_decide (j < k))]) (seq 0 n).

(** ** The rest of [App] *)

(** [getStorageKey]: the numbers are integers, written in decimal by
    the template literal. *)
Definition getStorageKey (year month : Z) : string :=
  "habit-tracker-data-" +:+ pretty year +:+ "-" +:+ pretty month.

(** The [value] of a mood or motivation input whose entry stores [n]:
    [n === 0 ? '' : n]. *)
Definition inputValue (n : Z) : string :=
  if (n =? 0)%Z then "" else pretty n.

(** [{ ...h, name: editName, icon: editIcon }] *)
Definition with_name_icon (h : Habit) (editName editIcon : string) : Habit :=
  {| id := id h; name := editName; icon := editIcon; goal := goal h; checks := checks h |}.

(** The habit built by [addHabit]. *)
Definition newHabit (newId : string) (daysInMonth : nat) : Habit :=
  {| id := newId; name := "New Habit"; icon := "âœ¨";
     goal := Z.of_nat daysInMonth; checks := JS.fill daysInMonth false |}.

(** [a[i] = c] for a value [c] that may be [undefined]. *)
Definition set_slot {A} (i : nat) (c : option A) (a : JS.array A) : JS.array A :=
  if decide (i < length a) then <[i := c]> a
  else a ++ replicate (i - length a) None ++ [c].

(** [[a[i], a[t]] = [a[t], a[i]]]: both reads come first, then the two
    writes in order. *)
Definition swap_slots {A} (i t : nat) (a : JS.array A) : JS.array A :=
  let x := JS.get a t in
  let y := JS.get a i in
  set_slot t y (set_slot i x a).

Inductive Direction := Up | Down.

(** [moveHabit] on the habit list [habits] that is both the rendered
    one (whose length the guards read) and the one the updater
    receives.  The result is the next habit array; out of range the
    destructuring assignment leaves [undefined] entries in it. *)
Definition moveHabit (index : nat) (direction : Direction) (habits : list Habit)
  : JS.array Habit :=
  match direction with
  | Up =>
      if decide (index = 0) then Some <$> habits
      else swap_slots index (index - 1) (Some <$> habits)
  | Down =>
      if decide (Z.of_nat index = Z.of_nat (length habits) - 1)%Z then Some <$> habits
      else swap_slots index (index + 1) (Some <$> habits)
  end.

(** The state of [App] that the handlers read and write, and the
    handlers as functions on it. *)
Module Ui.
Record state := mk {
  daysInMonth : nat;
  habits : list Habit;
  mentalState : JS.array MentalState;
  editingHabitId : option string;
  editName : string;
  editIcon : string;
  habitToDelete : option Habit
}.

Definition set_habits (hs : list Habit) (st : state) : state :=
  mk (daysInMonth st) hs (mentalState st) (editingHabitId st) (editName st) (editIcon st)
     (habitToDelete st).

Definition startEditing (habit : Habit) (st : state) : state :=
  mk (daysInMonth st) (habits st) (mentalState st) (Some (id habit)) (name habit) (icon habit)
     (habitToDelete st).

(** [if (editingHabitId)]: neither [null] nor the empty string. *)
Definition saveEditing (st : state) : state :=
  match editingHabitId st with
  | Some editingId =>
      if String.eqb editingId "" then st
      else
        mk (daysInMonth st)
           (fmap (fun h => if String.eqb (id h) editingId
                           then with_name_icon h (editName st) (editIcon st)
                           else h)
                 (habits st))
           (mentalState st) None (editName st) (editIcon st) (habitToDelete st)
  | None => st
  end.

Definition cancelEditing (st : state) : state :=
  mk (daysInMonth st) (habits st) (mentalState st) None (editName st) (editIcon st)
     (habitToDelete st).

Definition requestDelete (habit : Habit) (st : state) : state :=
  mk (daysInMonth st) (habits st) (mentalState st) (editingHabitId st) (editName st)
     (editIcon st) (Some habit).

(** The Cancel button of the modal: [setHabitToDelete(null)]. *)
Definition cancelDelete (st : state) : state :=
  mk (daysInMonth st) (habits st) (mentalState st) (editingHabitId st) (editName st)
     (editIcon st) None.

Definition confirmDelete (st : state) : state :=
  match habitToDelete st with
  | Some toDelete =>
      mk (daysInMonth st)
         (filter (fun h => id h <> id toDelete) (habits st))
         (mentalState st)
         (if decide (editingHabitId st = Some (id toDelete)) then None
          else editingHabitId st)
         (editName st) (editIcon st) None
  | None => st
  end.

(** [addHabit]; [now] is the value of [Date.now()]. *)
Definition addHabit (now : Z) (st : state) : state :=
  let newId := pretty now in
  mk (daysInMonth st) (habits st ++ [newHabit newId (daysInMonth st)]) (mentalState st)
     (Some newId) "New Habit" "âœ¨" (habitToDelete st).

Definition toggleCheck (habitId : string) (dayIndex : nat) (st : state) : state :=
  set_habits (toggleCheck habitId dayIndex (habits st)) st.

Definition handleMentalChange (dayIndex : nat) (field : Field) (value : string)
    (st : state) : state :=
  mk (daysInMonth st) (habits st)
     (handleMentalChange dayIndex field value (mentalState st))
     (editingHabitId st) (editName st) (editIcon st) (habitToDelete st).

(** States of [App] once the loading effect has run, with the handlers
    called as the rendered page calls them: on a habit of the list, at
    a rendered day index, at the position of a habit with an enabled
    arrow.  A month change closes edit mode and the modal and loads
    the month of the new date. *)
Inductive reachable : state -> Prop :=
| r_mount d stored prevStored hs ms :
    isMonthLength d ->
    loadMonth d stored prevStored = Some (hs, ms) ->
    reachable (mk d hs ms None "" "" None)
| r_monthChange st d stored prevStored hs ms :
    reachable st ->
    isMonthLength d ->
    loadMonth d stored prevStored = Some (hs, ms) ->
    reachable (mk d hs ms None (editName st) (editIcon st) None)
| r_toggleCheck st habit dIdx :
    reachable st -> habit ∈ habits st -> dIdx ∈ renderedDays (daysInMonth st) ->
    reachable (toggleCheck (id habit) dIdx st)
| r_handleMentalChange st dIdx field value :
    reachable st -> dIdx ∈ renderedDays (daysInMonth st) ->
    reachable (handleMentalChange dIdx field value st)
| r_startEditing st habit :
    reachable st -> habit ∈ habits st -> reachable (startEditing habit st)
| r_setEditName st value :
    reachable st ->
    reachable (mk (daysInMonth st) (habits st) (mentalState st) (editingHabitId st)
                  value (editIcon st) (habitToDelete st))
| r_setEditIcon st value :
    reachable st ->
    reachable (mk (daysInMonth st) (habits st) (mentalState st) (editingHabitId st)
                  (editName st) value (habitToDelete st))
| r_saveEditing st : reachable st -> reachable (saveEditing st)
| r_cancelEditing st : reachable st -> reachable (cancelEditing st)
| r_requestDelete st habit :
    reachable st -> habit ∈ habits st -> reachable (requestDelete habit st)
| r_cancelDelete st : reachable st -> reachable (cancelDelete st)
| r_confirmDelete st : reachable st -> reachable (confirmDelete st)
| r_addHabit st now : reachable st -> reachable (addHabit now st)
| r_moveHabit st index direction hs :
    reachable st ->
    index < length (habits st) ->
    moveHabit index direction (habits st) = Some <$> hs ->
    reachable (set_habits hs st).
End Ui.

(** Sum of a list of integers. *)
Definition sumZ (l : list Z) : Z := foldr Z.add 0%Z l.


(** Edit mode and the modal are on a habit of the list. *)
Definition targets_listed (st : Ui.state) : Prop :=
  (forall e, Ui.editingHabitId st = Some e -> e ∈ id <$> Ui.habits st) /\
  (forall h, Ui.habitToDelete st = Some h -> id h ∈ id <$> Ui.habits st).

End HabitTracker.
Export HabitTracker.

(** * Properties *)

(** ** Array reads and writes *)

Section js_array.
Context {A : Type}.
Implicit Types (a : JS.array A) (i j : nat) (v w : A).

Lemma get_lookup a i c : a !! i = Some c -> JS.get a i = c.
Proof. unfold JS.get. by intros ->. Qed.

Lemma get_ge a i : length a <= i -> JS.get a i = None.
Proof. intros H. unfold JS.get. by rewrite lookup_ge_None_2. Qed.

Lemma set_lt a i v : i < length a -> JS.set i v a = <[i := Some v]> a.
Proof. intros H. unfold JS.set. by case_decide; [|lia]. Qed.

Lemma set_ge a i v :
  length a <= i -> JS.set i v a = a ++ replicate (i - length a) None ++ [Some v].
Proof. intros H. unfold JS.set. by case_decide; [lia|]. Qed.

Lemma length_set a i v : length (JS.set i v a) = Nat.max (length a) (S i).
Proof.
  unfold JS.set. case_decide.
  - rewrite length_insert. lia.
  - rewrite !length_app, length_replicate. simpl. lia.
Qed.

Lemma lookup_set_eq a i v : JS.set i v a !! i = Some (Some v).
Proof.
  unfold JS.set. case_decide.
  - by apply list_lookup_insert_eq.
  - rewrite lookup_app_r by lia.
    rewrite lookup_app_r by (rewrite length_replicate; lia).
    rewrite length_replicate.
    by replace (i - length a - (i - length a)) with 0 by lia.
Qed.

Lemma get_set_eq a i v : JS.get (JS.set i v a) i = Some v.
Proof. apply get_lookup, lookup_set_eq. Qed.

Lemma get_set_ne a i j v : i <> j -> JS.get (JS.set i v a) j = JS.get a j.
Proof.
  intros Hne. unfold JS.set. case_decide.
  - unfold JS.get. by rewrite list_lookup_insert_ne.
  - destruct (decide (j < length a)) as [Hj|Hj].
    + unfold JS.get. by rewrite lookup_app_l.
    + rewrite (get_ge a j) by lia.
      unfold JS.get. rewrite lookup_app_r by lia.
      destruct (decide (j < i)) as [Hji|Hji].
      * rewrite lookup_app_l by (rewrite length_replicate; lia).
        rewrite lookup_replicate_2 by lia. done.
      * rewrite lookup_ge_None_2; [done|].
        rewrite length_app, length_replicate. simpl. lia.
Qed.

(** In range, a write touches one slot only. *)
Lemma lookup_set_ne a i j v :
  i < length a -> i <> j -> JS.set i v a !! j = a !! j.
Proof. intros Hi Hne. rewrite set_lt by done. by apply list_lookup_insert_ne. Qed.

Lemma set_set a i v w : JS.set i v (JS.set i w a) = JS.set i v a.
Proof.
  destruct (decide (i < length a)) as [Hi|Hi].
  - rewrite (set_lt a) by done. rewrite !set_lt by (rewrite ?length_insert; done).
    apply list_insert_insert_eq.
  - rewrite (set_ge a i w), (set_ge a i v) by lia.
    rewrite set_lt by (rewrite !length_app, length_replicate; simpl; lia).
    rewrite !assoc by apply _.
    replace i with (length (a ++ replicate (i - length a) None) + 0) at 1
      by (rewrite length_app, length_replicate; lia).
    by rewrite insert_app_r.
Qed.

Lemma set_same a i v : a !! i = Some (Some v) -> JS.set i v a = a.
Proof.
  intros H. rewrite set_lt by (by eapply lookup_lt_Some).
  by apply list_insert_id.
Qed.
End js_array.

(** ** [toggleCheck] *)

Lemma toggleCheck_length habitId dayIndex (prev : list Habit) :
  length (toggleCheck habitId dayIndex prev) = length prev.
Proof. unfold toggleCheck. apply length_fmap. Qed.

(** A habit with another identifier is returned as it is. *)
Lemma toggleCheck_lookup_other habitId dayIndex (prev : list Habit) j h :
  prev !! j = Some h -> id h <> habitId ->
  toggleCheck habitId dayIndex prev !! j = Some h.
Proof.
  intros Hj Hne. unfold toggleCheck. rewrite list_lookup_fmap, Hj. simpl.
  apply String.eqb_neq in Hne. by rewrite Hne.
Qed.

(** A habit with the identifier gets a copy of its checks with the slot
    [dayIndex] written. *)
Lemma toggleCheck_lookup_match habitId dayIndex (prev : list Habit) j h :
  prev !! j = Some h -> id h = habitId ->
  toggleCheck habitId dayIndex prev !! j =
    Some (with_checks h
            (JS.set dayIndex (negb (JS.truthy (JS.get (checks h) dayIndex))) (checks h))).
Proof.
  intros Hj Heq. unfold toggleCheck. rewrite list_lookup_fmap, Hj. simpl.
  apply String.eqb_eq in Heq. by rewrite Heq.
Qed.


Lemma with_checks_same h : with_checks h (checks h) = h.
Proof. by destruct h. Qed.

(** With distinct identifiers, the habit at position [j] is the only
    one that can carry [habitId]. *)
Lemma toggleCheck_unique habitId dayIndex (prev : list Habit) j h :
  NoDup (id <$> prev) ->
  prev !! j = Some h -> id h = habitId ->
  toggleCheck habitId dayIndex prev =
    <[j := with_checks h
             (JS.set dayIndex (negb (JS.truthy (JS.get (checks h) dayIndex))) (checks h))]> prev.
Proof.
  intros Hnd Hj Heq. apply list_eq. intros k.
  destruct (decide (j = k)) as [<-|Hne].
  - rewrite list_lookup_insert_eq by (by eapply lookup_lt_Some).
    by apply toggleCheck_lookup_match.
  - rewrite list_lookup_insert_ne by done.
    destruct (prev !! k) as [h'|] eqn:Hk.
    + apply toggleCheck_lookup_other; [done|].
      intros Heq'. apply Hne.
      eapply NoDup_lookup; [exact Hnd| |].
      * rewrite list_lookup_fmap, Hj. done.
      * rewrite list_lookup_fmap, Hk. simpl. congruence.
    + apply lookup_ge_None. rewrite toggleCheck_length. by apply lookup_ge_None.
Qed.




(** Two calls in a row, seen at one habit. *)
Lemma toggleCheck_twice_lookup habitId dayIndex (prev : list Habit) j h :
  prev !! j = Some h ->
  toggleCheck habitId dayIndex (toggleCheck habitId dayIndex prev) !! j =
    Some (if String.eqb (id h) habitId
          then with_checks h (JS.set dayIndex (JS.truthy (JS.get (checks h) dayIndex)) (checks h))
          else h).
Proof.
  intros Hj. destruct (String.eqb (id h) habitId) eqn:Heq.
  - apply String.eqb_eq in Heq.
    pose proof (toggleCheck_lookup_match _ dayIndex _ _ _ Hj Heq) as H1.
    rewrite (toggleCheck_lookup_match _ _ _ _ _ H1) by done.
    simpl. rewrite get_set_eq, set_set. simpl. by rewrite negb_involutive.
  - apply String.eqb_neq in Heq.
    apply toggleCheck_lookup_other; [|done].
    by apply toggleCheck_lookup_other.
Qed.

(** C9: after two calls of [toggleCheck] with the same habit
    identifier and day index, every habit of the list reads at that
    day index as it did before; where the original slot held a boolean,
    the slot holds that boolean again and the habit is the original
    one. *)
Theorem C9_toggleCheck_involutive (prev : list Habit) (habitId : string) (dayIndex : nat) :
  forall j h, prev !! j = Some h ->
    exists h',
      toggleCheck habitId dayIndex (toggleCheck habitId dayIndex prev) !! j = Some h' /\
      JS.truthy (JS.get (checks h') dayIndex) = JS.truthy (JS.get (checks h) dayIndex) /\
      (forall b, checks h !! dayIndex = Some (Some b) ->
         checks h' !! dayIndex = Some (Some b) /\ h' = h).
Proof.
  intros j h Hj. eexists. split; [by apply toggleCheck_twice_lookup|].
  destruct (String.eqb (id h) habitId); [|by auto].
  simpl. split; [by rewrite get_set_eq|].
  intros b Hb. rewrite (get_lookup _ _ _ Hb). simpl.
  rewrite set_same by done. split; [done|apply with_checks_same].
Qed.

(** C9 at a concrete list: a checked day toggled twice. *)
Lemma C9_toggleCheck_involutive_witness :
  exists h',
    toggleCheck "b" 1
      (toggleCheck "b" 1 [ mkHabit "b" "B" "y" 3 [Some false; Some true; Some false] ]) !! 0
      = Some h' /\
    JS.truthy (JS.get (checks h') 1) = true /\
    (forall b, Some (Some true) = Some (Some b) ->
       checks h' !! 1 = Some (Some b) /\
       h' = mkHabit "b" "B" "y" 3 [Some false; Some true; Some false]).
Proof.
  exact (C9_toggleCheck_involutive
           [ mkHabit "b" "B" "y" 3 [Some false; Some true; Some false] ] "b" 1
           0 (mkHabit "b" "B" "y" 3 [Some false; Some true; Some false]) eq_refl).
Defined.

(** ** Arrays built index by index *)

Lemma length_tabulate {A} n (f : nat -> A) : length (JS.tabulate n f) = n.
Proof. unfold JS.tabulate. by rewrite length_fmap, length_seq. Qed.

Lemma lookup_tabulate {A} n (f : nat -> A) i :
  i < n -> JS.tabulate n f !! i = Some (Some (f i)).
Proof.
  intros Hi. unfold JS.tabulate. rewrite list_lookup_fmap.
  by rewrite lookup_seq_lt.
Qed.

Lemma lookup_tabulate_ge {A} n (f : nat -> A) i :
  n <= i -> JS.tabulate n f !! i = None.
Proof. intros Hi. apply lookup_ge_None. by rewrite length_tabulate. Qed.


Lemma lookup_fill {A} n (v : A) i : i < n -> JS.fill n v !! i = Some (Some v).
Proof. apply lookup_replicate_2. Qed.

(** ** Loading a month *)

Lemma generateEmptyMentalState_length days :
  length (generateEmptyMentalState days) = days.
Proof. apply length_tabulate. Qed.

Lemma generateEmptyMentalState_lookup days i :
  i < days -> generateEmptyMentalState days !! i = Some (Some (emptyEntry i)).
Proof. apply lookup_tabulate. Qed.


(** On an array without empty slot, [find] does not throw. *)
Lemma find_day_dense d (a : JS.array MentalState) :
  Forall is_Some a -> find_day d a <> Throws.
Proof.
  induction 1 as [|c a [e ->] _ IH]; simpl; [done|].
  destruct (day e) as [x|]; [|done].
  by destruct (x =? d)%Z.
Qed.

Lemma generateEmptyMentalState_aligned d : aligned d (generateEmptyMentalState d).
Proof.
  split; [apply generateEmptyMentalState_length|].
  intros i Hi. exists (emptyEntry i).
  by rewrite generateEmptyMentalState_lookup.
Qed.


(** Reconciliation succeeds on every stored array without empty slot. *)
Lemma adjustedMental_dense d stored :
  Forall is_Some stored -> is_Some (adjustedMental d stored).
Proof.
  intros Hd. unfold adjustedMental. apply mapM_is_Some_2.
  apply Forall_forall. intros i _. simpl.
  pose proof (find_day_dense (Z.of_nat i + 1) stored Hd).
  by destruct (find_day (Z.of_nat i + 1) stored).
Qed.

Lemma adjustedHabits_lookup d (stored : list Habit) j h :
  stored !! j = Some h ->
  adjustedHabits d stored !! j =
    Some (with_checks h
            (if decide (length (checks h) = d) then checks h
             else JS.tabulate d (fun i => JS.truthy (JS.get (checks h) i) || false))).
Proof. intros Hj. unfold adjustedHabits. by rewrite list_lookup_fmap, Hj. Qed.

(** Loading a stored month hands over the reconciled habits, and
    succeeds when the stored mental state has no empty slot. *)
Lemma loadMonth_stored d parsed prevStored :
  (forall hs ms, loadMonth d (Some parsed) prevStored = Some (hs, ms) ->
     hs = adjustedHabits d (habits parsed)) /\
  (Forall is_Some (mentalState parsed) ->
     exists ms, loadMonth d (Some parsed) prevStored
                = Some (adjustedHabits d (habits parsed), ms)).
Proof.
  unfold loadMonth. split.
  - intros hs ms. destruct (adjustedMental d (mentalState parsed)); [|done].
    by intros [= <- _].
  - intros Hdense. destruct (adjustedMental_dense d _ Hdense) as [ms ->].
    by exists ms.
Qed.

(** C3: loading a stored month hands over the reconciled habit list,
    which keeps every habit, with its identifier, name, icon and goal,
    and gives it checks of length [daysInMonth]: a day index holding a
    stored boolean keeps it, a day index past the end of the stored
    checks reads [false]; checks of the right length are returned as
    they are, and shorter checks made of booleans are the stored ones
    followed by [false] entries. *)
Theorem C3_reconciliation (daysInMonth : nat) (parsed : MonthData)
    (prevStored : option MonthData) :
  (forall hs ms, loadMonth daysInMonth (Some parsed) prevStored = Some (hs, ms) ->
     hs = adjustedHabits daysInMonth (habits parsed)) /\
  (Forall is_Some (mentalState parsed) ->
     exists ms, loadMonth daysInMonth (Some parsed) prevStored
                = Some (adjustedHabits daysInMonth (habits parsed), ms)) /\
  length (adjustedHabits daysInMonth (habits parsed)) = length (habits parsed) /\
  forall j h, habits parsed !! j = Some h ->
    exists h',
      adjustedHabits daysInMonth (habits parsed) !! j = Some h' /\
      id h' = id h /\ name h' = name h /\ icon h' = icon h /\ goal h' = goal h /\
      length (checks h') = daysInMonth /\
      (forall i b, i < daysInMonth -> checks h !! i = Some (Some b) ->
         checks h' !! i = Some (Some b)) /\
      (forall i, length (checks h) <= i < daysInMonth ->
         checks h' !! i = Some (Some false)) /\
      (length (checks h) = daysInMonth -> checks h' = checks h) /\
      (Forall is_Some (checks h) -> length (checks h) <= daysInMonth ->
         checks h' =
           checks h ++ replicate (daysInMonth - length (checks h)) (Some false)).
Proof.
  split; [apply loadMonth_stored|]. split; [apply loadMonth_stored|].
  split; [apply length_fmap|].
  intros j h Hj. eexists. split; [by apply adjustedHabits_lookup|].
  simpl. do 4 (split; [done|]).
  case_decide as Hlen.
  - split; [done|]. split; [done|]. split; [intros i Hi; lia|].
    split; [done|]. intros _ _.
    replace (daysInMonth - length (checks h)) with 0 by lia.
    simpl. by rewrite app_nil_r.
  - assert (Hkeep : forall i b, i < daysInMonth -> checks h !! i = Some (Some b) ->
              JS.tabulate daysInMonth
                (fun i => JS.truthy (JS.get (checks h) i) || false) !! i
              = Some (Some b)).
    { intros i b Hi Hb. rewrite lookup_tabulate by done.
      rewrite (get_lookup _ _ _ Hb). simpl. by rewrite orb_false_r. }
    assert (Hpad : forall i, length (checks h) <= i < daysInMonth ->
              JS.tabulate daysInMonth
                (fun i => JS.truthy (JS.get (checks h) i) || false) !! i
              = Some (Some false)).
    { intros i Hi. rewrite lookup_tabulate by lia. by rewrite get_ge by lia. }
    split; [apply length_tabulate|]. split; [done|]. split; [done|].
    split; [done|]. intros Hbool Hle. apply list_eq. intros i.
    destruct (decide (i < length (checks h))) as [Hi|Hi].
    + rewrite lookup_app_l by done.
      destruct (lookup_lt_is_Some_2 _ _ Hi) as [c Hc].
      destruct (proj1 (Forall_lookup _ _) Hbool i c Hc) as [b ->].
      rewrite Hc. apply Hkeep; [lia|done].
    + rewrite lookup_app_r by lia.
      destruct (decide (i < daysInMonth)) as [Hd|Hd].
      * rewrite Hpad by lia. by rewrite lookup_replicate_2 by lia.
      * rewrite lookup_tabulate_ge by lia.
        symmetry. apply lookup_replicate_None. lia.
Qed.

(** C3 at the case named by the specification: 28 stored checks
    reconciled to a 31-day month. *)
Lemma C3_reconciliation_witness :
  exists h',
    adjustedHabits 31
      [ mkHabit "2" "Gym" "G" 30 (JS.fill 10 true ++ JS.fill 18 false) ] !! 0 = Some h' /\
    checks h' = (JS.fill 10 true ++ JS.fill 18 false) ++ replicate 3 (Some false).
Proof.
  destruct (C3_reconciliation 31
              (mkMonthData
                 [ mkHabit "2" "Gym" "G" 30 (JS.fill 10 true ++ JS.fill 18 false) ]
                 (generateEmptyMentalState 28) 0) None)
    as (_ & _ & _ & H).
  destruct (H 0 (mkHabit "2" "Gym" "G" 30 (JS.fill 10 true ++ JS.fill 18 false)) eq_refl)
    as (h' & Hh' & _ & _ & _ & _ & _ & _ & _ & _ & Happ).
  exists h'. split; [exact Hh'|].
  apply Happ.
  - simpl. repeat constructor; eexists; reflexivity.
  - simpl. lia.
Defined.

(** C4: with no entry for the requested month and an entry for the
    month before, loading succeeds with one habit per habit of the
    previous month, in the same order, each with the identifier, name,
    icon and goal of the previous one and [daysInMonth] checks that
    are all [false]; the mental state has [daysInMonth] entries, the
    one at index [i] being day [i + 1] with mood 0 and motivation 0. *)
Theorem C4_carry_over (daysInMonth : nat) (prevParsed : MonthData) :
  exists hs ms,
    loadMonth daysInMonth None (Some prevParsed) = Some (hs, ms) /\
    length hs = length (habits prevParsed) /\
    (forall j h, habits prevParsed !! j = Some h ->
       exists h',
         hs !! j = Some h' /\
         id h' = id h /\ name h' = name h /\ icon h' = icon h /\ goal h' = goal h /\
         checks h' = replicate daysInMonth (Some false)) /\
    length ms = daysInMonth /\
    (forall i, i < daysInMonth ->
       ms !! i = Some (Some {| day := Some (Z.of_nat i + 1)%Z;
                               mood := Some 0%Z; motivation := Some 0%Z |})).
Proof.
  eexists _, _. split; [reflexivity|].
  split; [apply length_fmap|]. split.
  - intros j h Hj. eexists. rewrite list_lookup_fmap, Hj. simpl. by repeat split.
  - split; [apply generateEmptyMentalState_length|].
    apply generateEmptyMentalState_lookup.
Qed.

(** C4 at a concrete record: habits A, B, C of a 30-day month, some
    checked, carried over to a 31-day month. *)
Lemma C4_carry_over_witness :
  exists hs ms,
    loadMonth 31 None
      (Some (mkMonthData
               [ mkHabit "a" "A" "x" 30 (JS.fill 30 true);
                 mkHabit "b" "B" "y" 12 (JS.fill 7 true ++ JS.fill 23 false);
                 mkHabit "c" "C" "z" 30 (JS.fill 30 false) ]
               (generateEmptyMentalState 30) 0)) = Some (hs, ms) /\
    hs !! 1 = Some (mkHabit "b" "B" "y" 12 (replicate 31 (Some false))).
Proof.
  destruct (C4_carry_over 31
              (mkMonthData
                 [ mkHabit "a" "A" "x" 30 (JS.fill 30 true);
                   mkHabit "b" "B" "y" 12 (JS.fill 7 true ++ JS.fill 23 false);
                   mkHabit "c" "C" "z" 30 (JS.fill 30 false) ]
                 (generateEmptyMentalState 30) 0))
    as (hs & ms & Hload & _ & Hhabits & _).
  exists hs, ms. split; [exact Hload|].
  destruct (Hhabits 1 (mkHabit "b" "B" "y" 12 (JS.fill 7 true ++ JS.fill 23 false)) eq_refl)
    as (h' & -> & Hid & Hname & Hicon & Hgoal & Hchecks).
  destruct h'; simpl in *. by subst.
Defined.

(** C5: with no entry for the requested month and none for the month
    before, loading yields the ten habits of the default template, in
    its order, with goal 30 and [daysInMonth] checks that are all
    [false]. *)
Theorem C5_default_template (daysInMonth : nat) :
  exists ms,
    loadMonth daysInMonth None None =
      Some ([ mkHabit "1" "Wake up at 05:00" "⏰" 30 (replicate daysInMonth (Some false));
              mkHabit "2" "Gym" "💪" 30 (replicate daysInMonth (Some false));
              mkHabit "3" "Reading / Learning" "📖" 30 (replicate daysInMonth (Some false));
              mkHabit "4" "Day Planning" "📝" 30 (replicate daysInMonth (Some false));
              mkHabit "5" "Budget Tracking" "💰" 30 (replicate daysInMonth (Some false));
              mkHabit "6" "Project Work" "🚀" 30 (replicate daysInMonth (Some false));
              mkHabit "7" "No Alcohol" "🍷" 30 (replicate daysInMonth (Some false));
              mkHabit "8" "Social Media Detox" "🌿" 30 (replicate daysInMonth (Some false));
              mkHabit "9" "Goal Journaling" "📔" 30 (replicate daysInMonth (Some false));
              mkHabit "10" "Cold Shower" "🚿" 30 (replicate daysInMonth (Some false)) ],
            ms) /\
    length ms = daysInMonth /\
    (forall i, i < daysInMonth ->
       ms !! i = Some (Some {| day := Some (Z.of_nat i + 1)%Z;
                               mood := Some 0%Z; motivation := Some 0%Z |})).
Proof.
  eexists. split; [reflexivity|].
  split; [apply generateEmptyMentalState_length|].
  apply generateEmptyMentalState_lookup.
Qed.

(** C5 in a 28-day month. *)
Lemma C5_default_template_witness :
  exists hs ms,
    loadMonth 28 None None = Some (hs, ms) /\
    length hs = 10 /\
    Forall (fun h => goal h = 30%Z /\ checks h = replicate 28 (Some false)) hs /\
    ms !! 27 = Some (Some {| day := Some 28%Z; mood := Some 0%Z; motivation := Some 0%Z |}).
Proof.
  destruct (C5_default_template 28) as (ms & Hload & _ & Hms).
  eexists _, ms. split; [exact Hload|].
  split; [reflexivity|]. split.
  - repeat constructor.
  - apply (Hms 27). lia.
Defined.

(** ** Derived data *)

Lemma truthy_true c : JS.truthy c = true <-> c = Some true.
Proof. destruct c as [[]|]; simpl; split; congruence. Qed.

Lemma truthy_get_true (a : JS.array bool) i :
  JS.truthy (JS.get a i) = true <-> a !! i = Some (Some true).
Proof.
  rewrite truthy_true. unfold JS.get.
  destruct (a !! i) as [c|]; split; congruence.
Qed.

Lemma count_truthy_habitTotal h : JS.count_truthy (checks h) = habitTotal h.
Proof.
  unfold JS.count_truthy, habitTotal. do 2 f_equal.
  apply list_filter_iff. intros c. apply truthy_true.
Qed.

Lemma habitTotal_bounds h : (0 <= habitTotal h <= Z.of_nat (length (checks h)))%Z.
Proof.
  unfold habitTotal.
  pose proof (length_filter (fun c => c = Some true) (checks h)). lia.
Qed.

(** The [reduce] of [dailyStats] counts the habits checked on day [i]. *)
Lemma doneCount_fold (hs : list Habit) i acc :
  fold_left (fun acc h => (acc + (if JS.truthy (JS.get (checks h) i) then 1 else 0))%Z) hs acc
  = (acc + doneOn hs i)%Z.
Proof.
  unfold doneOn. revert acc. induction hs as [|h hs IH]; intros acc; cbn [fold_left].
  - rewrite filter_nil. simpl. lia.
  - rewrite IH. rewrite filter_cons.
    destruct (JS.truthy (JS.get (checks h) i)) eqn:Ht.
    + apply truthy_get_true in Ht. rewrite decide_True by done. simpl length. lia.
    + rewrite decide_False; [lia|].
      intros Hc. apply truthy_get_true in Hc. congruence.
Qed.




(** The percentage is the one of the double arithmetic: with 23 of 40
    habits done, [23 / 40 * 100] is the double just below 57.5, and
    the percentage is 57. *)
Example dayStat_23_of_40 :
  Stat.done (dayStat (first_checked 23 40) 0) = 23%Z /\
  Stat.notDone (dayStat (first_checked 23 40) 0) = 17%Z /\
  Stat.percent (dayStat (first_checked 23 40) 0) = JS.of_Z 57.
Proof. vm_compute. auto. Qed.

(** In a calendar month, [c / d * 100] lies between 0 and 100 for
    every count [c] of at most [d] days: checked on each case. *)
Lemma month_percentage_bounds (d c : nat) :
  isMonthLength d -> c <= d ->
  SFleb (JS.of_Z 0)
        (JS.mul (JS.div (JS.of_Z (Z.of_nat c)) (JS.of_Z (Z.of_nat d))) (JS.of_Z 100)) = true /\
  SFleb (JS.mul (JS.div (JS.of_Z (Z.of_nat c)) (JS.of_Z (Z.of_nat d))) (JS.of_Z 100))
        (JS.of_Z 100) = true.
Proof.
  intros [Hlo Hhi] Hc.
  assert (Hall :
    forallb (fun d =>
      forallb (fun c =>
        let p := JS.mul (JS.div (JS.of_Z (Z.of_nat c)) (JS.of_Z (Z.of_nat d))) (JS.of_Z 100) in
        SFleb (JS.of_Z 0) p && SFleb p (JS.of_Z 100))
        (seq 0 (S d)))
      (seq 28 4) = true) by (vm_compute; reflexivity).
  rewrite forallb_forall in Hall.
  specialize (Hall d). rewrite forallb_forall in Hall.
  specialize (Hall ltac:(apply in_seq; lia) c ltac:(apply in_seq; lia)).
  simpl in Hall. by apply andb_true_iff in Hall.
Qed.

(** C2, as stated, fails: for a habit with goal 30 checked on each of
    the 31 days of its month the sidebar shows 100, while
    [habitTotal / goal * 100] is above 100. *)
Lemma C2_sidebar_is_not_goal_based :
  Row.percentage (analysisRow 31 gym_all_of_31) = JS.of_Z 100 /\
  SFltb (JS.of_Z 100) (habitProgressPercent gym_all_of_31 (goal gym_all_of_31)) = true /\
  Row.percentage (analysisRow 31 gym_all_of_31)
    <> habitProgressPercent gym_all_of_31 (goal gym_all_of_31).
Proof.
  split; [by vm_compute|]. split; [by vm_compute|].
  vm_compute. discriminate.
Qed.

(** C2 (amended): the row of a habit in the analysis sidebar shows the
    day count of the month as goal, [habitTotal habit] as the count,
    and [habitTotal habit / daysInMonth * 100] as the percentage (0 for
    a month of no day); the goal stored in the habit has no influence
    on the row; the percentage is not clamped, and with checks of the
    length of a calendar month it lies between 0 and 100. *)
Theorem C2_sidebar_percentage (daysInMonth : nat) (habit : Habit) :
  Row.goal (analysisRow daysInMonth habit) = Z.of_nat daysInMonth /\
  Row.checkedCount (analysisRow daysInMonth habit) = habitTotal habit /\
  Row.percentage (analysisRow daysInMonth habit) =
    (if (0 <? Z.of_nat daysInMonth)%Z
     then habitProgressPercent habit (Z.of_nat daysInMonth)
     else JS.of_Z 0) /\
  (forall g,
     analysisRow daysInMonth
       {| id := id habit; name := name habit; icon := icon habit; goal := g;
          checks := checks habit |}
     = analysisRow daysInMonth habit) /\
  (isMonthLength daysInMonth -> length (checks habit) = daysInMonth ->
     SFleb (JS.of_Z 0) (Row.percentage (analysisRow daysInMonth habit)) = true /\
     SFleb (Row.percentage (analysisRow daysInMonth habit)) (JS.of_Z 100) = true).
Proof.
  assert (Hpct : Row.percentage (analysisRow daysInMonth habit) =
            (if (0 <? Z.of_nat daysInMonth)%Z
             then habitProgressPercent habit (Z.of_nat daysInMonth)
             else JS.of_Z 0)).
  { unfold analysisRow, habitProgressPercent. simpl.
    by rewrite count_truthy_habitTotal. }
  split; [done|]. split; [apply count_truthy_habitTotal|].
  split; [done|]. split; [done|].
  intros Hd Hlen. rewrite Hpct.
  destruct (Z.ltb_spec 0 (Z.of_nat daysInMonth)) as [_|Hz];
    [|destruct Hd; lia].
  pose proof (habitTotal_bounds habit) as Hb. rewrite Hlen in Hb.
  unfold habitProgressPercent.
  rewrite <- (Z2Nat.id (habitTotal habit)) by lia.
  apply month_percentage_bounds; [done|lia].
Qed.

(** C2 (amended) on the habit of the counterexample. *)
Lemma C2_sidebar_percentage_witness :
  SFleb (JS.of_Z 0) (Row.percentage (analysisRow 31 gym_all_of_31)) = true /\
  SFleb (Row.percentage (analysisRow 31 gym_all_of_31)) (JS.of_Z 100) = true.
Proof.
  destruct (C2_sidebar_percentage 31 gym_all_of_31) as (_ & _ & _ & _ & H).
  apply H.
  - unfold isMonthLength. lia.
  - reflexivity.
Defined.

(** ** [handleMentalChange] *)

Lemma parseInt_empty : JS.parseInt "" = None.
Proof. reflexivity. Qed.

(** *** [parseInt] on decimal numerals *)

(** A decimal digit is one of the ten digit characters. *)
Lemma digit_value_10 c d :
  JS.digit_value 10 c = Some d ->
  c = "0"%char \/ c = "1"%char \/ c = "2"%char \/ c = "3"%char \/ c = "4"%char \/
  c = "5"%char \/ c = "6"%char \/ c = "7"%char \/ c = "8"%char \/ c = "9"%char.
Proof.
  destruct c as [[] [] [] [] [] [] [] []]; intros H; vm_compute in H;
    try discriminate H; tauto.
Qed.

(** Case analysis on a character known to be a decimal digit. *)
Ltac digit_cases H :=
  destruct (digit_value_10 _ _ H)
    as [-> | [-> | [-> | [-> | [-> | [-> | [-> | [-> | [-> | ->]]]]]]]]].

Lemma white_prefix_digit c r d :
  JS.digit_value 10 c = Some d -> JS.white_prefix (String c r) = 0.
Proof.
  intros H. digit_cases H;
    destruct r as [|c1 [|c2 r2]]; reflexivity.
Qed.

Lemma trimStart_digit c r d :
  JS.digit_value 10 c = Some d -> JS.trimStart (String c r) = String c r.
Proof.
  intros H. unfold JS.trimStart. cbn [String.length JS.trimStart_aux].
  by rewrite (white_prefix_digit _ _ _ H).
Qed.

Lemma digits_decimal s acc n :
  decimal s acc = Some n ->
  fold_left (fun acc d => acc * 10 + d)%Z (JS.digits 10 s) acc = n.
Proof.
  revert acc. induction s as [|c r IH]; intros acc; simpl.
  - by intros [= ->].
  - destruct (JS.digit_value 10 c) as [d|]; [|done]. simpl. apply IH.
Qed.

Lemma white_prefix_minus r : JS.white_prefix (String "-" r) = 0.
Proof. destruct r as [|c1 [|c2 r2]]; reflexivity. Qed.

(** The radix and digit stages of [parseInt] on a string of decimal
    digits. *)
Lemma parseInt_radix_decimal (sign : Z) c r n :
  decimal (String c r) 0 = Some n ->
  (let '(R, s3) :=
     match String c r with
     | String "0" (String "x" r0) => (16%Z, r0)
     | String "0" (String "X" r0) => (16%Z, r0)
     | _ => (10%Z, String c r)
     end in
   match JS.digits R s3 with
   | [] => None
   | ds => Some (sign * fold_left (fun acc d => acc * R + d) ds 0)%Z
   end) = Some (sign * n)%Z.
Proof.
  intros H. pose proof (digits_decimal _ _ _ H) as Hval.
  simpl in H. destruct (JS.digit_value 10 c) as [d|] eqn:Hc; [|done].
  assert (Hradix :
    match String c r with
    | String "0" (String "x" r0) => (16%Z, r0)
    | String "0" (String "X" r0) => (16%Z, r0)
    | _ => (10%Z, String c r)
    end = (10%Z, String c r)).
  { destruct r as [|c1 r1].
    - digit_cases Hc; reflexivity.
    - simpl in H. destruct (JS.digit_value 10 c1) as [d1|] eqn:Hc1; [|done].
      digit_cases Hc;
      digit_cases Hc1;
        reflexivity. }
  rewrite Hradix.
  simpl JS.digits in *. rewrite Hc in *. by rewrite Hval.
Qed.

Lemma parseInt_decimal s n :
  s <> "" -> decimal s 0 = Some n -> JS.parseInt s = Some n.
Proof.
  destruct s as [|c r]; [done|]. intros _ H.
  assert (exists d, JS.digit_value 10 c = Some d) as [d Hc].
  { simpl in H. destruct (JS.digit_value 10 c); [by eexists|done]. }
  unfold JS.parseInt. rewrite (trimStart_digit _ _ _ Hc).
  assert (Hsign :
    match String c r with
    | String "-" r0 => ((-1)%Z, r0)
    | String "+" r0 => (1%Z, r0)
    | _ => (1%Z, String c r)
    end = (1%Z, String c r)).
  { digit_cases Hc; reflexivity. }
  rewrite Hsign. rewrite (parseInt_radix_decimal 1 _ _ _ H). f_equal; lia.
Qed.

Lemma parseInt_minus_decimal s n :
  s <> "" -> decimal s 0 = Some n -> JS.parseInt ("-" +:+ s) = Some (- n)%Z.
Proof.
  destruct s as [|c r]; [done|]. intros _ H.
  unfold JS.parseInt.
  change ("-" +:+ String c r) with (String "-" (String c r)).
  unfold JS.trimStart. cbn [String.length JS.trimStart_aux].
  rewrite white_prefix_minus.
  rewrite (parseInt_radix_decimal (-1) _ _ _ H). f_equal; lia.
Qed.

(** [pretty] writes decimal digits. *)
Lemma pretty_N_char_digit x :
  (x < 10)%N -> JS.digit_value 10 (pretty_N_char x) = Some (Z.of_N x).
Proof.
  intros Hx.
  assert (x = 0 \/ x = 1 \/ x = 2 \/ x = 3 \/ x = 4 \/ x = 5 \/ x = 6 \/ x = 7 \/
          x = 8 \/ x = 9)%N as Hcases by lia.
  destruct Hcases as [-> | [-> | [-> | [-> | [-> | [-> | [-> | [-> | [-> | ->]]]]]]]]];
    reflexivity.
Qed.

Lemma decimal_pretty_N_go x :
  exists k : nat, forall s acc,
    decimal (pretty_N_go x s) acc = decimal s (acc * 10 ^ Z.of_nat k + Z.of_N x)%Z.
Proof.
  induction (N.lt_wf_0 x) as [x _ IH].
  destruct (decide (x = 0)%N) as [->|Hx].
  - exists 0. intros s acc. rewrite pretty_N_go_0. f_equal. lia.
  - destruct (IH (x `div` 10)%N) as [k Hk]; [apply N.div_lt; lia|].
    exists (S k). intros s acc.
    rewrite pretty_N_go_step by lia. rewrite Hk. simpl.
    rewrite pretty_N_char_digit by (apply N.mod_lt; lia).
    f_equal. rewrite Nat2Z.inj_succ, Z.pow_succ_r by lia.
    pose proof (N.div_mod x 10 ltac:(lia)) as Hdm.
    apply (f_equal Z.of_N) in Hdm. rewrite N2Z.inj_add, N2Z.inj_mul in Hdm.
    simpl Z.of_N in Hdm at 2. lia.
Qed.

Lemma pretty_N_go_nonempty x s : s <> "" -> pretty_N_go x s <> "".
Proof.
  revert s. induction (N.lt_wf_0 x) as [x _ IH]; intros s Hs.
  destruct (decide (x = 0)%N) as [->|Hx].
  - by rewrite pretty_N_go_0.
  - rewrite pretty_N_go_step by lia. apply IH; [apply N.div_lt; lia|done].
Qed.

Lemma pretty_N_decimal (x : N) :
  pretty x <> "" /\ decimal (pretty x) 0 = Some (Z.of_N x).
Proof.
  unfold pretty, pretty_N. case_decide as Hx; [by subst|].
  split.
  - rewrite pretty_N_go_step by lia. by apply pretty_N_go_nonempty.
  - destruct (decimal_pretty_N_go x) as [k Hk]. rewrite Hk. simpl. f_equal.
Qed.

(** [parseInt] reads back the decimal numeral of every integer. *)
Lemma parseInt_pretty (z : Z) : JS.parseInt (pretty z) = Some z.
Proof.
  unfold pretty, pretty_Z. destruct z as [|p|p].
  - reflexivity.
  - destruct (pretty_N_decimal (N.pos p)) as [Hne Hd].
    by apply parseInt_decimal.
  - destruct (pretty_N_decimal (N.pos p)) as [Hne Hd].
    apply (parseInt_minus_decimal (pretty (N.pos p)) (Z.pos p)); done.
Qed.

(** *** The stored number *)

Lemma numVal_NaN value : JS.parseInt value = None -> numVal value = 0%Z.
Proof.
  intros H. unfold numVal. destruct (String.eqb value ""); [done|].
  by rewrite H.
Qed.

Lemma numVal_parsed value n :
  JS.parseInt value = Some n ->
  numVal value = (if n <? 0 then 0 else if 10 <? n then 10 else n)%Z.
Proof.
  intros H. unfold numVal. destruct (String.eqb_spec value "") as [->|_].
  - by rewrite parseInt_empty in H.
  - rewrite H. unfold JS.Math_min, JS.Math_max. simpl.
    destruct (Z.ltb_spec n 0); [lia|]. destruct (Z.ltb_spec 10 n); lia.
Qed.

Lemma numVal_bounds value : (0 <= numVal value <= 10)%Z.
Proof.
  unfold numVal. destruct (String.eqb value ""); [lia|].
  unfold JS.Math_min, JS.Math_max. lia.
Qed.

(** A write inside the array replaces the entry by a copy with the
    named field set. *)
Lemma handleMentalChange_in_range dayIndex field value (prev : JS.array MentalState) c :
  prev !! dayIndex = Some c ->
  handleMentalChange dayIndex field value prev =
    <[dayIndex := Some (with_field (spread c) field (numVal value))]> prev.
Proof.
  intros H. unfold handleMentalChange.
  rewrite (get_lookup _ _ _ H). apply set_lt. by eapply lookup_lt_Some.
Qed.

(** C7: [handleMentalChange] on the entry [e] at [dayIndex] replaces it
    by a copy in which the named field holds the stored number, the
    day and the other field being those of [e], and leaves the other
    entries as they are.  The stored number is 0 for the empty string
    and for a string that [parseInt] does not parse, and otherwise the
    integer that [parseInt] reads, clamped to [0, 10]: for the decimal
    numeral of an integer [z] it is [z] clamped to [0, 10], and for
    ["15"], ["-3"] and [""] it is 10, 0 and 0. *)
Theorem C7_setMentalValue (prev : JS.array MentalState) (dayIndex : nat)
    (field : Field) (value : string) (e : MentalState) :
  prev !! dayIndex = Some (Some e) ->
  exists e',
    handleMentalChange dayIndex field value prev = <[dayIndex := Some e']> prev /\
    day e' = day e /\
    match field with
    | Mood => mood e' = Some (numVal value) /\ motivation e' = motivation e
    | Motivation => motivation e' = Some (numVal value) /\ mood e' = mood e
    end /\
    (0 <= numVal value <= 10)%Z /\
    (value = "" -> numVal value = 0%Z) /\
    (JS.parseInt value = None -> numVal value = 0%Z) /\
    (forall n, JS.parseInt value = Some n ->
       numVal value = (if n <? 0 then 0 else if 10 <? n then 10 else n)%Z) /\
    (forall z : Z, value = pretty z ->
       numVal value = (if z <? 0 then 0 else if 10 <? z then 10 else z)%Z) /\
    numVal "15" = 10%Z /\ numVal "-3" = 0%Z /\ numVal "" = 0%Z.
Proof.
  intros He. exists (with_field e field (numVal value)).
  split; [by rewrite (handleMentalChange_in_range _ _ _ _ _ He)|].
  split; [by destruct field|]. split; [by destruct field|].
  split; [apply numVal_bounds|]. split; [by intros ->|].
  split; [apply numVal_NaN|]. split; [apply numVal_parsed|].
  split; [intros z ->; apply numVal_parsed, parseInt_pretty|].
  by vm_compute.
Qed.

(** C7 on the third day of a fresh month: mood input ["15"]. *)
Lemma C7_setMentalValue_witness :
  handleMentalChange 2 Mood "15" (generateEmptyMentalState 28) =
    <[2 := Some {| day := Some 3%Z; mood := Some 10%Z; motivation := Some 0%Z |}]>
      (generateEmptyMentalState 28).
Proof.
  destruct (C7_setMentalValue (generateEmptyMentalState 28) 2 Mood "15" (emptyEntry 2) eq_refl)
    as (e' & Heq & Hday & [Hmood Hmot] & _).
  rewrite Heq. destruct e'; simpl in *. by subst.
Defined.

(** ** Week grouping *)

(** One iteration of the loop. *)
Lemma weeks_loop_step d c k w :
  weeks_loop d c k w =
    if decide (c < d) then
      if decide (k = 4) then
        w ++ [ {| label := "Week " +:+ pretty k;
                  days := fmap (fun i => c + i) (seq 0 (d - c)) |} ]
      else weeks_loop d (c + 7) (k + 1)
             (w ++ [ {| label := "Week " +:+ pretty k;
                        days := fmap (fun i => c + i) (seq 0 7) |} ])
    else w.
Proof.
  rewrite weeks_loop_equation_1.
  destruct (decide (c < d)); [|reflexivity].
  cbn [weeks_loop_unfold_clause_1].
  destruct (decide (k = 4)); reflexivity.
Qed.

Lemma weeks_loop_next d c k w :
  c < d -> k <> 4 ->
  weeks_loop d c k w =
    weeks_loop d (c + 7) (k + 1)
      (w ++ [ {| label := "Week " +:+ pretty k; days := seq c 7 |} ]).
Proof.
  intros Hc Hk. rewrite weeks_loop_step at 1.
  rewrite decide_True by done. rewrite decide_False by done.
  change (fun i => c + i) with (Nat.add c).
  by rewrite fmap_add_seq, Nat.add_0_r.
Qed.

Lemma weeks_loop_last d c w :
  c < d ->
  weeks_loop d c 4 w = w ++ [ {| label := "Week 4"; days := seq c (d - c) |} ].
Proof.
  intros Hc. rewrite weeks_loop_step.
  rewrite decide_True by done. rewrite decide_True by done.
  change (fun i => c + i) with (Nat.add c).
  by rewrite fmap_add_seq, Nat.add_0_r.
Qed.

Lemma weeks_loop_done d c k w : d <= c -> weeks_loop d c k w = w.
Proof. intros Hc. rewrite weeks_loop_step. by rewrite decide_False by lia. Qed.

(** With more than 21 days the loop leaves at its fourth iteration. *)
Lemma weeks_four d :
  21 < d ->
  weeks d = [ mkWeek "Week 1" (seq 0 7); mkWeek "Week 2" (seq 7 7);
              mkWeek "Week 3" (seq 14 7); mkWeek "Week 4" (seq 21 (d - 21)) ].
Proof.
  intros Hd. unfold weeks.
  rewrite weeks_loop_next by lia. simpl.
  rewrite weeks_loop_next by lia. simpl.
  rewrite weeks_loop_next by lia. simpl.
  by rewrite weeks_loop_last by lia.
Qed.

Lemma renderedDays_four d : 21 < d -> renderedDays d = seq 0 d.
Proof.
  intros Hd. unfold renderedDays. rewrite weeks_four by done.
  cbn [fmap list_fmap days concat]. rewrite app_nil_r.
  replace d with (7 + (7 + (7 + (d - 21)))) at 2 by lia.
  by rewrite !seq_app.
Qed.

(** C8: for a month of 28 to 31 days the grouping yields four buckets:
    day indices 0..6, 7..13, 14..20, and the [daysInMonth - 21] indices
    from 21 on; the buckets in order make up 0, 1, ..., daysInMonth - 1. *)
Theorem C8_weeks (daysInMonth : nat) :
  isMonthLength daysInMonth ->
  weeks daysInMonth =
    [ mkWeek "Week 1" (seq 0 7); mkWeek "Week 2" (seq 7 7);
      mkWeek "Week 3" (seq 14 7); mkWeek "Week 4" (seq 21 (daysInMonth - 21)) ] /\
  fmap (fun w => length (days w)) (weeks daysInMonth) = [7; 7; 7; daysInMonth - 21] /\
  concat (fmap days (weeks daysInMonth)) = seq 0 daysInMonth.
Proof.
  intros [Hlo Hhi]. split; [apply weeks_four; lia|]. split.
  - rewrite weeks_four by lia. simpl. by rewrite length_seq.
  - apply renderedDays_four. lia.
Qed.

(** C8 at 31 and at 28 days: bucket sizes 7, 7, 7, 10 and 7, 7, 7, 7. *)
Lemma C8_weeks_witness :
  fmap (fun w => length (days w)) (weeks 31) = [7; 7; 7; 10] /\
  fmap (fun w => length (days w)) (weeks 28) = [7; 7; 7; 7].
Proof.
  split.
  - apply (C8_weeks 31). unfold isMonthLength. lia.
  - apply (C8_weeks 28). unfold isMonthLength. lia.
Defined.

(** ** Mental state: array index and day number *)


Lemma with_field_day m field v : day (with_field m field v) = day m.
Proof. by destruct field. Qed.

Lemma with_field_other m field v :
  match field with
  | Mood => motivation (with_field m field v) = motivation m
  | Motivation => mood (with_field m field v) = mood m
  end.
Proof. by destruct field. Qed.

(** What [handleMentalChange] leaves in place when it writes inside
    the array. *)
Lemma handleMentalChange_preserves dIdx field value (ms : JS.array MentalState) :
  dIdx < length ms ->
  length (handleMentalChange dIdx field value ms) = length ms /\
  forall i e, ms !! i = Some (Some e) ->
    exists e',
      handleMentalChange dIdx field value ms !! i = Some (Some e') /\
      day e' = day e /\
      (i <> dIdx -> e' = e) /\
      match field with
      | Mood => motivation e' = motivation e
      | Motivation => mood e' = mood e
      end.
Proof.
  intros Hlt. destruct (lookup_lt_is_Some_2 _ _ Hlt) as [c Hc].
  rewrite (handleMentalChange_in_range _ _ _ _ _ Hc).
  split; [apply length_insert|].
  intros i e Hi. destruct (decide (i = dIdx)) as [->|Hne].
  - rewrite list_lookup_insert_eq by done.
    rewrite Hc in Hi. injection Hi as ->. simpl.
    eexists. split; [done|]. split; [apply with_field_day|].
    split; [done|]. apply with_field_other.
  - rewrite list_lookup_insert_ne by done.
    exists e. split; [done|]. split; [done|]. split; [done|]. by destruct field.
Qed.

Lemma handleMentalChange_aligned d dIdx field value (ms : JS.array MentalState) :
  aligned d ms -> dIdx < d -> aligned d (handleMentalChange dIdx field value ms).
Proof.
  intros [Hlen Hday] Hlt.
  destruct (handleMentalChange_preserves dIdx field value ms) as [Hlen' Hkeep]; [lia|].
  split; [lia|]. intros i Hi.
  destruct (Hday i Hi) as (e & He & Hd).
  destruct (Hkeep i e He) as (e' & He' & Hd' & _).
  exists e'. split; [done|]. congruence.
Qed.






(** * More properties of the code *)

(** ** Storage key *)

Lemma decimal_dash r b acc : decimal (r +:+ String "-" b) acc = None.
Proof.
  revert acc. induction r as [|c r IH]; intros acc; simpl; [done|].
  by destruct (JS.digit_value 10 c).
Qed.

(** A string is split in one way only at its last dash. *)
Lemma split_at_last_dash a a' b b' acc acc' n n' :
  decimal b acc = Some n -> decimal b' acc' = Some n' ->
  a +:+ String "-" b = a' +:+ String "-" b' ->
  a = a' /\ b = b'.
Proof.
  intros Hb Hb'. revert a'. induction a as [|c a IH]; intros [|c' a']; simpl.
  - by intros [= ->].
  - intros [= <- ->]. by rewrite decimal_dash in Hb.
  - intros [= -> <-]. by rewrite decimal_dash in Hb'.
  - intros [= -> H]. destruct (IH _ H) as [-> ->]. done.
Qed.

Lemma pretty_Z_decimal (z : Z) :
  (0 <= z)%Z -> decimal (pretty z) 0 = Some z.
Proof.
  intros Hz. unfold pretty, pretty_Z. destruct z as [|p|p]; [done| |lia].
  apply (pretty_N_decimal (N.pos p)).
Qed.

(** X1: for months numbered from 0, as [getMonth] numbers them, two
    storage keys are equal only for the same year and the same month. *)
Theorem X1_getStorageKey_injective (year month year' month' : Z) :
  (0 <= month)%Z -> (0 <= month')%Z ->
  getStorageKey year month = getStorageKey year' month' ->
  year = year' /\ month = month'.
Proof.
  intros Hm Hm' H. unfold getStorageKey in H.
  apply (inj (String.append "habit-tracker-data-")) in H.
  change ("-" +:+ pretty month) with (String "-" (pretty month)) in H.
  change ("-" +:+ pretty month') with (String "-" (pretty month')) in H.
  destruct (split_at_last_dash _ _ _ _ _ _ _ _
              (pretty_Z_decimal _ Hm) (pretty_Z_decimal _ Hm') H) as [Hy Hmm].
  split; by apply (inj pretty).
Qed.

(** X1 at the key of November 2026. *)
Lemma X1_getStorageKey_injective_witness :
  getStorageKey 2026 10 = "habit-tracker-data-2026-10" /\
  (2026%Z = 2026%Z /\ 10%Z = 10%Z).
Proof.
  split; [reflexivity|].
  apply (X1_getStorageKey_injective 2026 10 2026 10); [lia|lia|reflexivity].
Defined.

(** ** Reconciliation of well-formed records *)

Lemma mapM_pointwise {A B} (f : A -> option B) (g : A -> B) (l : list A) :
  (forall x, x ∈ l -> f x = Some (g x)) -> mapM f l = Some (g <$> l).
Proof.
  induction l as [|x l IH]; intros H; [done|].
  simpl. rewrite (H x) by apply list_elem_of_here. simpl.
  rewrite IH; [done|]. intros y Hy. apply H. by apply list_elem_of_further.
Qed.

(** In an array whose entry at position [j] is the one of day
    [k + j + 1], [find] reaches the entry of a day of the array, whatever
    follows the array. *)
Lemma find_day_numbered (ms extra : JS.array MentalState) (k : Z) i e :
  (forall j, j < length ms ->
     exists m, ms !! j = Some (Some m) /\ day m = Some (k + Z.of_nat j + 1)%Z) ->
  ms !! i = Some (Some e) ->
  find_day (k + Z.of_nat i + 1) (ms ++ extra) = Found e.
Proof.
  revert k i. induction ms as [|c ms IH]; intros k i Hnum Hi; [done|].
  destruct (Hnum 0) as (m & Hm & Hd); [simpl; lia|].
  simpl in Hm. injection Hm as ->. simpl. rewrite Hd.
  destruct i as [|i].
  - simpl in Hi. injection Hi as ->.
    by rewrite Z.eqb_refl.
  - destruct (Z.eqb_spec (k + Z.of_nat 0 + 1) (k + Z.of_nat (S i) + 1)) as [Heq|_]; [lia|].
    replace (k + Z.of_nat (S i) + 1)%Z with ((k + 1) + Z.of_nat i + 1)%Z by lia.
    apply IH; [|done].
    intros j Hj. destruct (Hnum (S j)) as (m' & Hm' & Hd'); [simpl; lia|].
    exists m'. split; [done|]. rewrite Hd'. f_equal. lia.
Qed.

(** A day that no entry carries is not found. *)
Lemma find_day_absent (ms : JS.array MentalState) (d : Z) :
  (forall j c, ms !! j = Some c -> exists m, c = Some m /\ day m <> Some d) ->
  find_day d ms = NotFound.
Proof.
  induction ms as [|c ms IH]; intros H; [done|].
  destruct (H 0 c eq_refl) as (m & -> & Hd). simpl.
  rewrite IH by (intros j c' Hj; apply (H (S j) c' Hj)).
  destruct (day m) as [x|]; [|done].
  destruct (Z.eqb_spec x d) as [->|]; [done|done].
Qed.

Lemma find_day_aligned d0 (ms extra : JS.array MentalState) i e :
  aligned d0 ms -> ms !! i = Some (Some e) ->
  find_day (Z.of_nat i + 1) (ms ++ extra) = Found e.
Proof.
  intros [Hlen Hday] Hi.
  apply (find_day_numbered ms extra 0 i e); [|done].
  intros j Hj. destruct (Hday j) as (m & Hm & Hd); [lia|].
  exists m. split; [done|]. rewrite Hd. f_equal.
Qed.

Lemma find_day_aligned_past d0 (ms : JS.array MentalState) i :
  aligned d0 ms -> d0 <= i -> find_day (Z.of_nat i + 1) ms = NotFound.
Proof.
  intros [Hlen Hday] Hi. apply find_day_absent. intros j c Hj.
  pose proof (lookup_lt_Some _ _ _ Hj) as Hlt.
  destruct (Hday j) as (m & Hm & Hd); [lia|].
  exists m. split; [congruence|]. rewrite Hd. intros [= ?]. lia.
Qed.

(** The entry that reconciliation puts at index [i], for a stored array
    that is aligned for a month of [d0] days. *)
Lemma adjustedMental_entry d0 d (ms extra : JS.array MentalState) :
  aligned d0 ms -> (d0 < d -> extra = []) ->
  adjustedMental d (ms ++ extra) =
    Some ((fun i => if decide (i < d0) then JS.get ms i else Some (emptyEntry i))
            <$> seq 0 d).
Proof.
  intros Hal Hextra. unfold adjustedMental. apply mapM_pointwise.
  intros i Hi. apply elem_of_seq in Hi. case_decide as Hlt.
  - destruct Hal as [Hlen Hday]. destruct (Hday i Hlt) as (e & He & _).
    rewrite (find_day_aligned d0 ms extra i e); [|done|done].
    by rewrite (get_lookup _ _ _ He).
  - rewrite Hextra by lia. rewrite app_nil_r.
    by rewrite (find_day_aligned_past d0 ms i Hal) by lia.
Qed.

Lemma adjustedMental_of_aligned d0 d (ms : JS.array MentalState) :
  aligned d0 ms ->
  adjustedMental d ms =
    Some (take d ms ++ ((fun i => Some (emptyEntry i)) <$> seq d0 (d - d0))).
Proof.
  intros Hal. rewrite <- (app_nil_r ms) at 1.
  rewrite (adjustedMental_entry d0 d ms []) by done.
  f_equal. destruct Hal as [Hlen Hday]. apply list_eq. intros i.
  rewrite list_lookup_fmap.
  destruct (decide (i < d)) as [Hd|Hd].
  - rewrite lookup_seq_lt by done. simpl.
    destruct (decide (i < d0)) as [Hlt|Hge].
    + rewrite lookup_app_l by (rewrite length_take; lia).
      rewrite lookup_take_lt by done.
      destruct (Hday i Hlt) as (e & He & _). rewrite He.
      by rewrite (get_lookup _ _ _ He).
    + rewrite lookup_app_r by (rewrite length_take; lia).
      rewrite length_take, list_lookup_fmap.
      replace (Nat.min d (length ms)) with d0 by lia.
      rewrite lookup_seq_lt by lia. simpl. do 3 f_equal. lia.
  - rewrite lookup_seq_ge by lia. simpl. symmetry. apply lookup_ge_None.
    rewrite length_app, length_take, length_fmap, length_seq. lia.
Qed.

Lemma adjustedMental_id d (ms : JS.array MentalState) :
  aligned d ms -> adjustedMental d ms = Some ms.
Proof.
  intros Hal. rewrite (adjustedMental_of_aligned d d ms Hal).
  destruct Hal as [Hlen _].
  rewrite take_ge by lia. rewrite Nat.sub_diag. simpl. by rewrite app_nil_r.
Qed.

Lemma adjustedHabits_id d (hs : list Habit) :
  Forall (fun h => length (checks h) = d) hs -> adjustedHabits d hs = hs.
Proof.
  intros H. unfold adjustedHabits.
  rewrite <- (list_fmap_id hs) at 2. apply Forall_fmap_ext.
  eapply Forall_impl; [exact H|]. intros h Hh. simpl.
  rewrite decide_True by done. apply with_checks_same.
Qed.

(** X2: loading a record whose habits all have [daysInMonth] checks
    and whose mental state has one entry per day, in day order, hands
    over these habits and this mental state unchanged: what the save
    effect writes for a well-formed month is read back as it was. *)
Theorem X2_load_of_saved_month (daysInMonth : nat) (hs : list Habit)
    (ms : JS.array MentalState) (lastUpdated : Z) (prevStored : option MonthData) :
  Forall (fun h => length (checks h) = daysInMonth) hs ->
  aligned daysInMonth ms ->
  loadMonth daysInMonth (Some (mkMonthData hs ms lastUpdated)) prevStored = Some (hs, ms).
Proof.
  intros Hhs Hms. unfold loadMonth. simpl.
  by rewrite (adjustedMental_id _ _ Hms), (adjustedHabits_id _ _ Hhs).
Qed.

(** X2 on a 28-day month with one habit checked on its first day. *)
Lemma X2_load_of_saved_month_witness :
  loadMonth 28
    (Some (mkMonthData [ mkHabit "2" "Gym" "G" 30 (JS.set 0 true (JS.fill 28 false)) ]
                       (generateEmptyMentalState 28) 1700000000000))
    None
  = Some ([ mkHabit "2" "Gym" "G" 30 (JS.set 0 true (JS.fill 28 false)) ],
          generateEmptyMentalState 28).
Proof.
  apply X2_load_of_saved_month.
  - repeat constructor.
  - apply generateEmptyMentalState_aligned.
Defined.

(** X3: a mental state stored for a month of [d0] days, reconciled to
    a month of [d] days, keeps its first [d] entries and gets a zero
    entry for each of the days [d0 + 1 .. d]. *)
Theorem X3_mental_state_across_month_lengths (d0 d : nat) (ms : JS.array MentalState) :
  aligned d0 ms ->
  adjustedMental d ms =
    Some (take d ms ++ ((fun i => Some (emptyEntry i)) <$> seq d0 (d - d0))).
Proof. apply adjustedMental_of_aligned. Qed.

(** X3 from a 30-day month with a mood on day 30 to months of 31 and
    of 28 days. *)
Lemma X3_mental_state_across_month_lengths_witness :
  adjustedMental 31 (handleMentalChange 29 Mood "7" (generateEmptyMentalState 30)) =
    Some (handleMentalChange 29 Mood "7" (generateEmptyMentalState 30)
          ++ [Some (emptyEntry 30)]) /\
  adjustedMental 28 (handleMentalChange 29 Mood "7" (generateEmptyMentalState 30)) =
    Some (generateEmptyMentalState 28).
Proof.
  assert (Hal : aligned 30 (handleMentalChange 29 Mood "7" (generateEmptyMentalState 30))).
  { apply handleMentalChange_aligned; [apply generateEmptyMentalState_aligned|lia]. }
  split.
  - rewrite (X3_mental_state_across_month_lengths 30 31 _ Hal). reflexivity.
  - rewrite (X3_mental_state_across_month_lengths 30 28 _ Hal). reflexivity.
Defined.





(** ** An empty slot in the stored mental state *)

(** When [find] gets past an empty slot, an entry before the slot
    carries the day. *)
Lemma find_day_past_empty_slot (a : JS.array MentalState) (k : Z) p :
  find_day k a <> Throws -> a !! p = Some None ->
  exists j m, j < p /\ a !! j = Some (Some m) /\ day m = Some k.
Proof.
  revert p. induction a as [|[m|] a IH]; intros p Hfind Hp; [done| |done].
  destruct p as [|p]; [done|]. simpl in Hp, Hfind.
  destruct (day m) as [x|] eqn:Hd.
  - destruct (Z.eqb_spec x k) as [->|_].
    + exists 0, m. split; [lia|done].
    + destruct (IH p Hfind Hp) as (j & m' & Hj & Hm' & Hd').
      exists (S j), m'. split; [lia|done].
  - destruct (IH p Hfind Hp) as (j & m' & Hj & Hm' & Hd').
    exists (S j), m'. split; [lia|done].
Qed.

(** The days found before an empty slot at position [p] are at most
    [p]. *)
Lemma adjustedMental_empty_slot d (a ms : JS.array MentalState) p :
  adjustedMental d a = Some ms -> a !! p = Some None -> d <= p.
Proof.
  intros Hadj Hp. unfold adjustedMental in Hadj. apply mapM_Some_1 in Hadj.
  set (carried := (fun c : option MentalState =>
                     match c with
                     | Some m => default 0%Z (day m)
                     | None => 0%Z
                     end) <$> take p a).
  assert (Hsub : ((fun i => Z.of_nat i + 1)%Z <$> seq 0 d) ⊆+ carried).
  { apply NoDup_submseteq.
    - apply NoDup_fmap_2; [intros i j; lia|apply NoDup_seq].
    - intros x Hx. apply list_elem_of_fmap in Hx as (i & -> & Hi).
      apply elem_of_seq in Hi.
      destruct (Forall2_lookup_l _ _ _ i i Hadj) as (c & _ & Hf).
      { apply lookup_seq_lt. lia. }
      destruct (find_day_past_empty_slot a (Z.of_nat i + 1) p) as (j & m & Hj & Hm & Hd);
        [by destruct (find_day (Z.of_nat i + 1) a)|done|].
      apply list_elem_of_fmap. exists (Some m). rewrite Hd. split; [done|].
      apply list_elem_of_lookup. exists j. by rewrite lookup_take_lt. }
  apply submseteq_length in Hsub.
  unfold carried in Hsub. rewrite !length_fmap, length_seq, length_take in Hsub. lia.
Qed.

(** X6: when one of the first [daysInMonth] slots of the stored mental
    state is empty, loading the stored month throws: no state is set. *)
Theorem X6_load_throws_on_empty_slot (daysInMonth : nat) (parsed : MonthData)
    (prevStored : option MonthData) (p : nat) :
  mentalState parsed !! p = Some None -> p < daysInMonth ->
  loadMonth daysInMonth (Some parsed) prevStored = None.
Proof.
  intros Hp Hlt. unfold loadMonth.
  destruct (adjustedMental daysInMonth (mentalState parsed)) as [ms|] eqn:Hadj; [|done].
  pose proof (adjustedMental_empty_slot _ _ _ _ Hadj Hp). lia.
Qed.

(** X6 on a stored month whose third mental-state entry is [null]. *)
Lemma X6_load_throws_on_empty_slot_witness :
  loadMonth 28
    (Some (mkMonthData [] [Some (emptyEntry 0); Some (emptyEntry 1); None] 0)) None = None.
Proof.
  apply (X6_load_throws_on_empty_slot 28 _ None 2); [reflexivity|lia].
Defined.

(** ** Editing, deleting and adding habits *)

(** The statistics of a day read the checks only. *)
Lemma doneCount_checks (hs hs' : list Habit) i acc :
  checks <$> hs = checks <$> hs' ->
  fold_left (fun acc h => (acc + (if JS.truthy (JS.get (checks h) i) then 1 else 0))%Z) hs acc
  = fold_left (fun acc h => (acc + (if JS.truthy (JS.get (checks h) i) then 1 else 0))%Z) hs' acc.
Proof.
  revert hs' acc. induction hs as [|h hs IH]; intros [|h' hs'] acc H; try done.
  simpl in H. injection H as Hc H. simpl. rewrite Hc. by apply IH.
Qed.

Lemma dayStat_checks (hs hs' : list Habit) i :
  checks <$> hs = checks <$> hs' -> dayStat hs i = dayStat hs' i.
Proof.
  intros H. unfold dayStat.
  assert (Hlen : length hs = length hs').
  { by rewrite <- (length_fmap checks hs), H, length_fmap. }
  by rewrite (doneCount_checks hs hs' i 0 H), Hlen.
Qed.

Lemma totalActualChecks_checks (hs hs' : list Habit) :
  checks <$> hs = checks <$> hs' -> totalActualChecks hs = totalActualChecks hs'.
Proof.
  unfold totalActualChecks. generalize 0%Z.
  revert hs'. induction hs as [|h hs IH]; intros [|h' hs'] acc H; try done.
  simpl in H. injection H as Hc H. simpl. rewrite Hc. by apply IH.
Qed.

(** The habit list after [saveEditing] in a state whose edit mode is on
    a habit with a non-empty identifier. *)
Lemma saveEditing_habits st editingId :
  Ui.editingHabitId st = Some editingId -> editingId <> "" ->
  Ui.habits (Ui.saveEditing st) =
    (fun h => if String.eqb (id h) editingId
              then with_name_icon h (Ui.editName st) (Ui.editIcon st) else h)
      <$> Ui.habits st.
Proof.
  intros He Hne. unfold Ui.saveEditing. rewrite He.
  apply String.eqb_neq in Hne. by rewrite Hne.
Qed.

Lemma saveEditing_keeps {B} (proj : Habit -> B) st :
  (forall h n i, proj (with_name_icon h n i) = proj h) ->
  proj <$> Ui.habits (Ui.saveEditing st) = proj <$> Ui.habits st.
Proof.
  intros Hproj. unfold Ui.saveEditing.
  destruct (Ui.editingHabitId st) as [editingId|]; [|done].
  destruct (String.eqb editingId ""); [done|]. simpl.
  rewrite <- list_fmap_compose. apply list_fmap_ext. intros j h _. simpl.
  by destruct (String.eqb (id h) editingId).
Qed.

(** X7: [saveEditing] changes names and icons only: the habits keep
    their order, identifiers, goals and checks, so the statistics of
    every day, the completed total and every row of the sidebar are
    the same before and after. *)
Theorem X7_saveEditing_keeps_progress (st : Ui.state) :
  id <$> Ui.habits (Ui.saveEditing st) = id <$> Ui.habits st /\
  goal <$> Ui.habits (Ui.saveEditing st) = goal <$> Ui.habits st /\
  checks <$> Ui.habits (Ui.saveEditing st) = checks <$> Ui.habits st /\
  Ui.mentalState (Ui.saveEditing st) = Ui.mentalState st /\
  (forall d, dailyStats d (Ui.habits (Ui.saveEditing st)) = dailyStats d (Ui.habits st)) /\
  totalActualChecks (Ui.habits (Ui.saveEditing st)) = totalActualChecks (Ui.habits st) /\
  (forall d, analysisRow d <$> Ui.habits (Ui.saveEditing st)
             = analysisRow d <$> Ui.habits st).
Proof.
  assert (Hchecks : checks <$> Ui.habits (Ui.saveEditing st) = checks <$> Ui.habits st)
    by (by apply saveEditing_keeps).
  split; [by apply saveEditing_keeps|]. split; [by apply saveEditing_keeps|].
  split; [done|]. split.
  { unfold Ui.saveEditing. destruct (Ui.editingHabitId st) as [e|]; [|done].
    by destruct (String.eqb e ""). }
  split; [|split].
  - intros d. unfold dailyStats. apply list_fmap_ext. intros _ i _.
    by apply dayStat_checks.
  - by apply totalActualChecks_checks.
  - intros d. by apply (saveEditing_keeps (analysisRow d)).
Qed.

(** With distinct identifiers, a habit is determined by its
    identifier. *)
Lemma NoDup_id_eq (hs : list Habit) h h' :
  NoDup (id <$> hs) -> h ∈ hs -> h' ∈ hs -> id h = id h' -> h = h'.
Proof.
  intros Hnd Hh Hh' Hid.
  apply list_elem_of_lookup in Hh as [i Hi]. apply list_elem_of_lookup in Hh' as [j Hj].
  assert (i = j) as ->; [|congruence].
  eapply NoDup_lookup; [exact Hnd| |].
  - rewrite list_lookup_fmap, Hi. done.
  - rewrite list_lookup_fmap, Hj. simpl. by rewrite Hid.
Qed.

(** X8: in a list of habits with distinct identifiers, opening edit
    mode on a habit of the list and saving at once leaves the habit
    list as it was; edit mode is closed, except on a habit whose
    identifier is the empty string, for which saving does nothing. *)
Theorem X8_startEditing_then_saveEditing (st : Ui.state) (habit : Habit) :
  habit ∈ Ui.habits st -> NoDup (id <$> Ui.habits st) ->
  Ui.habits (Ui.saveEditing (Ui.startEditing habit st)) = Ui.habits st /\
  (id habit <> "" ->
     Ui.editingHabitId (Ui.saveEditing (Ui.startEditing habit st)) = None) /\
  (id habit = "" ->
     Ui.saveEditing (Ui.startEditing habit st) = Ui.startEditing habit st).
Proof.
  intros Hin Hnd. unfold Ui.saveEditing. simpl.
  destruct (String.eqb_spec (id habit) "") as [Hid|Hid]; simpl.
  - split; [done|]. split; [done|done].
  - split; [|split; [done|done]].
    rewrite <- (list_fmap_id (Ui.habits st)) at 2.
    apply list_fmap_ext. intros j h Hj. simpl.
    destruct (String.eqb_spec (id h) (id habit)) as [Heq|_]; [|done].
    assert (h = habit) as ->.
    { apply (NoDup_id_eq (Ui.habits st)); [done| |done|done].
      by eapply list_elem_of_lookup_2. }
    by destruct habit.
Qed.

(** X8 on the second of two habits. *)
Lemma X8_startEditing_then_saveEditing_witness :
  Ui.habits
    (Ui.saveEditing
       (Ui.startEditing (mkHabit "b" "B" "y" 3 (JS.fill 3 true))
          (Ui.mk 3 [ mkHabit "a" "A" "x" 3 (JS.fill 3 false);
                     mkHabit "b" "B" "y" 3 (JS.fill 3 true) ]
                 (generateEmptyMentalState 3) None "" "" None)))
  = [ mkHabit "a" "A" "x" 3 (JS.fill 3 false); mkHabit "b" "B" "y" 3 (JS.fill 3 true) ].
Proof.
  refine (proj1 (X8_startEditing_then_saveEditing
                   (Ui.mk 3 [ mkHabit "a" "A" "x" 3 (JS.fill 3 false);
                              mkHabit "b" "B" "y" 3 (JS.fill 3 true) ]
                          (generateEmptyMentalState 3) None "" "" None)
                   (mkHabit "b" "B" "y" 3 (JS.fill 3 true)) _ _)).
  - simpl. apply list_elem_of_further, list_elem_of_here.
  - simpl. apply NoDup_cons. split; [|apply NoDup_singleton].
    intros Hin. apply list_elem_of_singleton in Hin. discriminate Hin.
Defined.



(** A habit with no day checked counts for nothing. *)
Lemma count_truthy_fill_false n : JS.count_truthy (JS.fill n false) = 0%Z.
Proof.
  unfold JS.count_truthy, JS.fill. induction n as [|n IH]; [done|].
  simpl replicate. rewrite filter_cons, decide_False by done. exact IH.
Qed.

Lemma get_fill_false n i : JS.truthy (JS.get (JS.fill n false) i) = false.
Proof.
  unfold JS.get, JS.fill. destruct (replicate n (Some false) !! i) as [c|] eqn:H; [|done].
  apply lookup_replicate in H as [-> _]. done.
Qed.

(** X10: [addHabit] puts one habit at the end of the list, with the
    decimal of [Date.now()] as identifier, the day count as goal and
    [daysInMonth] unchecked days; for every day the done count stays
    and the not-done count grows by one, the completed total stays and
    the possible total grows by the day count; distinct identifiers
    stay distinct when the new identifier is not in the list. *)
Theorem X10_addHabit (now : Z) (st : Ui.state) :
  Ui.habits (Ui.addHabit now st) =
    Ui.habits st ++
      [ {| id := pretty now; name := "New Habit"; icon := "âœ¨";
           goal := Z.of_nat (Ui.daysInMonth st);
           checks := replicate (Ui.daysInMonth st) (Some false) |} ] /\
  (forall i,
     Stat.done (dayStat (Ui.habits (Ui.addHabit now st)) i)
       = Stat.done (dayStat (Ui.habits st) i) /\
     Stat.notDone (dayStat (Ui.habits (Ui.addHabit now st)) i)
       = (Stat.notDone (dayStat (Ui.habits st) i) + 1)%Z) /\
  totalActualChecks (Ui.habits (Ui.addHabit now st)) = totalActualChecks (Ui.habits st) /\
  totalPossibleChecks (Ui.daysInMonth st) (Ui.habits (Ui.addHabit now st))
    = (totalPossibleChecks (Ui.daysInMonth st) (Ui.habits st)
       + Z.of_nat (Ui.daysInMonth st))%Z /\
  (NoDup (id <$> Ui.habits st) -> pretty now ∉ id <$> Ui.habits st ->
     NoDup (id <$> Ui.habits (Ui.addHabit now st))).
Proof.
  split; [done|]. split; [|split; [|split]].
  - intros i. unfold dayStat. simpl. rewrite fold_left_app. simpl.
    rewrite get_fill_false, length_app. simpl. split; lia.
  - unfold totalActualChecks. simpl. rewrite fold_left_app. simpl.
    rewrite count_truthy_fill_false. lia.
  - unfold totalPossibleChecks. simpl. rewrite length_app. simpl. lia.
  - intros Hnd Hfresh. simpl. rewrite fmap_app. simpl.
    apply NoDup_app. split; [done|]. split; [|apply NoDup_singleton].
    intros x Hx Hin. apply list_elem_of_singleton in Hin. by subst.
Qed.

(** X10 with a fresh identifier on a list of one habit. *)
Lemma X10_addHabit_witness :
  NoDup (id <$> Ui.habits
                  (Ui.addHabit 1700000000000
                     (Ui.mk 28 [ mkHabit "1" "Gym" "G" 30 (JS.fill 28 false) ]
                            (generateEmptyMentalState 28) None "" "" None))).
Proof.
  refine (proj2 (proj2 (proj2 (proj2
            (X10_addHabit 1700000000000
               (Ui.mk 28 [ mkHabit "1" "Gym" "G" 30 (JS.fill 28 false) ]
                      (generateEmptyMentalState 28) None "" "" None))))) _ _).
  - simpl. apply NoDup_singleton.
  - simpl. intros Hin. apply list_elem_of_singleton in Hin. discriminate Hin.
Defined.

(** ** [moveHabit] *)

Section slots.
Context {A : Type}.
Implicit Types (a : JS.array A) (c : option A).

Lemma set_slot_lt i c a : i < length a -> set_slot i c a = <[i := c]> a.
Proof. intros H. unfold set_slot. by rewrite decide_True. Qed.


(** Two neighbours change places. *)
Lemma swap_slots_down (l r : JS.array A) c1 c2 :
  swap_slots (length l) (length l + 1) (l ++ c1 :: c2 :: r) = l ++ c2 :: c1 :: r.
Proof.
  unfold swap_slots, JS.get.
  rewrite (lookup_app_r l _ (length l + 1)) by lia.
  rewrite (lookup_app_r l _ (length l)) by lia.
  replace (length l + 1 - length l) with 1 by lia. rewrite Nat.sub_diag. simpl.
  rewrite (set_slot_lt (length l)) by (rewrite length_app; simpl; lia).
  rewrite insert_app_r_alt, Nat.sub_diag by lia. simpl.
  rewrite set_slot_lt by (rewrite length_app; simpl; lia).
  rewrite insert_app_r_alt by lia.
  by replace (length l + 1 - length l) with 1 by lia.
Qed.

Lemma swap_slots_up (l r : JS.array A) c1 c2 :
  swap_slots (S (length l)) (S (length l) - 1) (l ++ c1 :: c2 :: r) = l ++ c2 :: c1 :: r.
Proof.
  replace (S (length l) - 1) with (length l) by lia.
  unfold swap_slots, JS.get.
  rewrite (lookup_app_r l _ (S (length l))) by lia.
  rewrite (lookup_app_r l _ (length l)) by lia.
  replace (S (length l) - length l) with 1 by lia. rewrite Nat.sub_diag. simpl.
  rewrite (set_slot_lt (S (length l))) by (rewrite length_app; simpl; lia).
  rewrite insert_app_r_alt by lia.
  replace (S (length l) - length l) with 1 by lia. simpl.
  rewrite set_slot_lt by (rewrite length_app; simpl; lia).
  rewrite insert_app_r_alt, Nat.sub_diag by lia. done.
Qed.
End slots.

Lemma fmap_Some_neighbours (l1 l2 : list Habit) x y :
  Some <$> (l1 ++ x :: y :: l2) = (Some <$> l1) ++ Some x :: Some y :: (Some <$> l2).
Proof. by rewrite fmap_app. Qed.

Lemma moveHabit_down (l1 l2 : list Habit) x y :
  moveHabit (length l1) Down (l1 ++ x :: y :: l2) = Some <$> (l1 ++ y :: x :: l2).
Proof.
  unfold moveHabit. rewrite decide_False by (rewrite length_app; simpl; lia).
  rewrite !fmap_Some_neighbours.
  rewrite <- (length_fmap Some l1). apply swap_slots_down.
Qed.

Lemma moveHabit_up (l1 l2 : list Habit) x y :
  moveHabit (S (length l1)) Up (l1 ++ x :: y :: l2) = Some <$> (l1 ++ y :: x :: l2).
Proof.
  unfold moveHabit. rewrite decide_False by lia.
  rewrite !fmap_Some_neighbours.
  rewrite <- (length_fmap Some l1). apply swap_slots_up.
Qed.



(** At a position of the list, the result has no empty slot and holds
    the same habits. *)
(** A list with an element at [i] and one at [i + 1]. *)
Lemma split_neighbours (hs : list Habit) i :
  S i < length hs ->
  exists l1 x y l2, hs = l1 ++ x :: y :: l2 /\ length l1 = i.
Proof.
  intros Hlt.
  destruct (lookup_lt_is_Some_2 hs i ltac:(lia)) as [x Hx].
  destruct (lookup_lt_is_Some_2 hs (S i) Hlt) as [y Hy].
  exists (take i hs), x, y, (drop (S (S i)) hs). split.
  - rewrite <- (drop_S hs y (S i)) by done. symmetry. by apply take_drop_middle.
  - rewrite length_take. lia.
Qed.

Lemma moveHabit_in_range index direction (hs : list Habit) :
  index < length hs ->
  exists hs', moveHabit index direction hs = Some <$> hs' /\ hs' ≡ₚ hs.
Proof.
  intros Hlt. destruct direction.
  - destruct index as [|i]; [by exists hs|].
    destruct (split_neighbours hs i Hlt) as (l1 & x & y & l2 & -> & <-).
    exists (l1 ++ y :: x :: l2). split; [apply moveHabit_up|].
    apply Permutation_app_head, perm_swap.
  - destruct (decide (index = length hs - 1)) as [Hlast|Hnot].
    + exists hs. split; [|done]. unfold moveHabit. by rewrite decide_True by lia.
    + destruct (split_neighbours hs index ltac:(lia)) as (l1 & x & y & l2 & -> & <-).
      exists (l1 ++ y :: x :: l2). split; [apply moveHabit_down|].
      apply Permutation_app_head, perm_swap.
Qed.



(** ** Invariants of the reachable states *)



Lemma toggleCheck_ids habitId dayIndex (hs : list Habit) :
  id <$> toggleCheck habitId dayIndex hs = id <$> hs.
Proof.
  unfold toggleCheck. rewrite <- list_fmap_compose. apply list_fmap_ext.
  intros j h _. simpl. by destruct (negb (String.eqb (id h) habitId)).
Qed.


Lemma reachable_targets_listed st : Ui.reachable st -> targets_listed st.
Proof.
  unfold targets_listed.
  induction 1 as [d stored prevStored hs ms Hd Hload
                 | st d stored prevStored hs ms _ _ Hd Hload
                 | st habit dIdx _ [He Hdel] _ Hidx
                 | st dIdx field value _ IH Hidx
                 | st habit _ [He Hdel] Hin | st value _ IH | st value _ IH
                 | st _ [He Hdel] | st _ [He Hdel]
                 | st habit _ [He Hdel] Hin | st _ [He Hdel]
                 | st _ [He Hdel]
                 | st now _ [He Hdel]
                 | st index direction hs _ [He Hdel] Hidx Hmove]; simpl; try done.
  - by rewrite toggleCheck_ids.
  - split; [|done]. intros e [= <-]. by apply list_elem_of_fmap_2.
  - unfold Ui.saveEditing. destruct (Ui.editingHabitId st) as [e|] eqn:Hed;
      [|split; [by rewrite Hed|done]].
    destruct (String.eqb e ""); [split; [by rewrite Hed|done]|]. simpl. split; [done|].
    intros h Hh. specialize (Hdel h Hh).
    apply list_elem_of_fmap in Hdel as (h' & Hid & Hin).
    apply list_elem_of_fmap. eexists. split; [|apply list_elem_of_fmap_2, Hin].
    rewrite Hid. by destruct (String.eqb (id h') e).
  - split; [done|]. intros h [= <-]. by apply list_elem_of_fmap_2.
  - unfold Ui.confirmDelete. destruct (Ui.habitToDelete st) as [toDelete|] eqn:Htd;
      [|split; [done|by rewrite Htd]].
    simpl. split; [|done]. intros e. case_decide as Hne; [done|]. intros Hed.
    specialize (He e Hed). apply list_elem_of_fmap in He as (h' & -> & Hin).
    apply list_elem_of_fmap_2, list_elem_of_filter. split; [|done]. congruence.
  - split.
    + intros e [= <-]. rewrite fmap_app. apply elem_of_app. right.
      apply list_elem_of_here.
    + intros h Hh. rewrite fmap_app. apply elem_of_app. left. by apply Hdel.
  - destruct (moveHabit_in_range index direction (Ui.habits st) Hidx) as (hs' & Heq & Hperm).
    rewrite Heq in Hmove. apply (inj (fmap Some)) in Hmove. subst hs'.
    split; [intros e Hed|intros h Hh]; rewrite Hperm; auto.
Qed.


(** X13: in every such state, edit mode, when open, is on the
    identifier of a habit of the list, and the habit chosen in the
    delete modal, when there is one, has the identifier of a habit of
    the list. *)
Theorem X13_reachable_targets_listed (st : Ui.state) :
  Ui.reachable st ->
  (forall e, Ui.editingHabitId st = Some e -> e ∈ id <$> Ui.habits st) /\
  (forall h, Ui.habitToDelete st = Some h -> id h ∈ id <$> Ui.habits st).
Proof. apply reachable_targets_listed. Qed.

(** A state reached by loading a 28-day month for the first time,
    adding a habit, choosing the first template habit for deletion
    and confirming. *)
Lemma reachable_example :
  Ui.reachable
    (Ui.confirmDelete
       (Ui.requestDelete (mkHabit "1" "Wake up at 05:00" "⏰" 30 (JS.fill 28 false))
          (Ui.addHabit 1700000000000
             (Ui.mk 28 (fmap (fun t => of_template t (JS.fill 28 false)) DEFAULT_HABITS_TEMPLATE)
                    (generateEmptyMentalState 28) None "" "" None)))).
Proof.
  apply Ui.r_confirmDelete, Ui.r_requestDelete; [apply Ui.r_addHabit|].
  - apply (Ui.r_mount 28 None None); [unfold isMonthLength; lia|reflexivity].
  - simpl. apply list_elem_of_here.
Defined.


(** X13 on that state: edit mode is on the added habit. *)
Lemma X13_reachable_targets_listed_witness :
  "1700000000000" ∈
    id <$> Ui.habits
      (Ui.confirmDelete
         (Ui.requestDelete (mkHabit "1" "Wake up at 05:00" "⏰" 30 (JS.fill 28 false))
            (Ui.addHabit 1700000000000
               (Ui.mk 28 (fmap (fun t => of_template t (JS.fill 28 false))
                               DEFAULT_HABITS_TEMPLATE)
                      (generateEmptyMentalState 28) None "" "" None)))).
Proof.
  exact (proj1 (X13_reachable_targets_listed _ reachable_example) "1700000000000" eq_refl).
Defined.

(** ** Totals and daily counts *)

Lemma sumZ_zero {A} (l : list A) : sumZ ((fun _ => 0%Z) <$> l) = 0%Z.
Proof. unfold sumZ. induction l as [|x l IH]; [done|]. simpl. exact IH. Qed.

Lemma sumZ_add {A} (f g : A -> Z) (l : list A) :
  sumZ ((fun x => f x + g x)%Z <$> l) = (sumZ (f <$> l) + sumZ (g <$> l))%Z.
Proof.
  unfold sumZ. induction l as [|x l IH]; [done|].
  rewrite !fmap_cons. cbn [foldr]. rewrite IH. lia.
Qed.

Lemma count_truthy_cons c (a : JS.array bool) :
  JS.count_truthy (c :: a) = ((if JS.truthy c then 1 else 0) + JS.count_truthy a)%Z.
Proof.
  unfold JS.count_truthy. rewrite filter_cons.
  destruct (JS.truthy c); [rewrite decide_True by done|rewrite decide_False by done];
    simpl length; lia.
Qed.

Lemma count_truthy_app (a1 a2 : JS.array bool) :
  JS.count_truthy (a1 ++ a2) = (JS.count_truthy a1 + JS.count_truthy a2)%Z.
Proof. unfold JS.count_truthy. rewrite filter_app, length_app. lia. Qed.

(** The checked days of a habit, counted day by day. *)
Lemma count_truthy_by_day (a : JS.array bool) d :
  length a <= d ->
  sumZ ((fun i => if JS.truthy (JS.get a i) then 1 else 0)%Z <$> seq 0 d)
  = JS.count_truthy a.
Proof.
  revert d. induction a as [|c a IH]; intros d Hd.
  - rewrite (list_fmap_ext _ (fun _ => 0%Z) (seq 0 d)); [apply sumZ_zero|].
    intros j i _. by destruct i.
  - destruct d as [|d]; [simpl in Hd; lia|].
    rewrite count_truthy_cons, <- (IH d) by (simpl in Hd; lia).
    simpl seq. rewrite <- fmap_S_seq, fmap_cons, <- list_fmap_compose. done.
Qed.

Lemma totalActualChecks_acc (hs : list Habit) acc :
  fold_left (fun acc h => (acc + JS.count_truthy (checks h))%Z) hs acc
  = (acc + totalActualChecks hs)%Z.
Proof.
  unfold totalActualChecks. revert acc. induction hs as [|h hs IH]; intros acc; simpl; [lia|].
  rewrite IH, (IH (0 + _)%Z). lia.
Qed.

Lemma totalActualChecks_cons h (hs : list Habit) :
  totalActualChecks (h :: hs) = (JS.count_truthy (checks h) + totalActualChecks hs)%Z.
Proof. unfold totalActualChecks at 1. simpl. by rewrite totalActualChecks_acc. Qed.

Lemma totalActualChecks_app (l1 l2 : list Habit) :
  totalActualChecks (l1 ++ l2) = (totalActualChecks l1 + totalActualChecks l2)%Z.
Proof.
  induction l1 as [|h l1 IH]; [done|].
  rewrite <- app_comm_cons, !totalActualChecks_cons, IH. lia.
Qed.

Lemma dayStat_done (hs : list Habit) i : Stat.done (dayStat hs i) = doneOn hs i.
Proof. unfold dayStat. simpl. by rewrite doneCount_fold. Qed.

Lemma doneOn_cons h (hs : list Habit) i :
  doneOn (h :: hs) i
  = ((if JS.truthy (JS.get (checks h) i) then 1 else 0) + doneOn hs i)%Z.
Proof.
  unfold doneOn. rewrite filter_cons.
  destruct (JS.truthy (JS.get (checks h) i)) eqn:Ht.
  - apply truthy_get_true in Ht. rewrite decide_True by done. simpl length. lia.
  - rewrite decide_False; [lia|]. intros Hc. apply truthy_get_true in Hc. congruence.
Qed.

Lemma doneOn_app (l1 l2 : list Habit) i :
  doneOn (l1 ++ l2) i = (doneOn l1 i + doneOn l2 i)%Z.
Proof. unfold doneOn. rewrite filter_app, length_app. lia. Qed.

Lemma totalActualChecks_by_day d (hs : list Habit) :
  Forall (fun h => length (checks h) <= d) hs ->
  totalActualChecks hs = sumZ (Stat.done <$> dailyStats d hs).
Proof.
  intros H. unfold dailyStats. rewrite <- list_fmap_compose.
  rewrite (list_fmap_ext _ (doneOn hs) (seq 0 d)) by (intros; apply dayStat_done).
  induction H as [|h hs Hh _ IH].
  - by rewrite sumZ_zero.
  - rewrite totalActualChecks_cons, IH, <- (count_truthy_by_day (checks h) d Hh).
    rewrite <- sumZ_add. f_equal. apply list_fmap_ext. intros _ i _.
    symmetry. apply doneOn_cons.
Qed.

Lemma totalActualChecks_bounds d (hs : list Habit) :
  Forall (fun h => length (checks h) <= d) hs ->
  (0 <= totalActualChecks hs <= totalPossibleChecks d hs)%Z.
Proof.
  unfold totalPossibleChecks. induction 1 as [|h hs Hh _ IH]; [simpl; unfold totalActualChecks; simpl; lia|].
  rewrite totalActualChecks_cons, count_truthy_habitTotal.
  pose proof (habitTotal_bounds h). simpl length. lia.
Qed.

(** X14: when no habit has more checks than the month has days, the
    completed total of the header is the sum of the done counts of the
    days, and lies between 0 and the possible total. *)
Theorem X14_completed_total_is_sum_of_days (daysInMonth : nat) (hs : list Habit) :
  Forall (fun h => length (checks h) <= daysInMonth) hs ->
  totalActualChecks hs = sumZ (Stat.done <$> dailyStats daysInMonth hs) /\
  (0 <= totalActualChecks hs <= totalPossibleChecks daysInMonth hs)%Z.
Proof.
  intros H. split; [by apply totalActualChecks_by_day|by apply totalActualChecks_bounds].
Qed.

(** X14 on two habits of a 3-day month. *)
Lemma X14_completed_total_is_sum_of_days_witness :
  totalActualChecks
    [ mkHabit "a" "A" "x" 3 [Some true; Some false; Some true];
      mkHabit "b" "B" "y" 3 [Some true; Some false; Some false] ] = 3%Z /\
  sumZ (Stat.done <$> dailyStats 3
          [ mkHabit "a" "A" "x" 3 [Some true; Some false; Some true];
            mkHabit "b" "B" "y" 3 [Some true; Some false; Some false] ]) = 3%Z.
Proof.
  split; [reflexivity|].
  rewrite <- (proj1 (X14_completed_total_is_sum_of_days 3
                       [ mkHabit "a" "A" "x" 3 [Some true; Some false; Some true];
                         mkHabit "b" "B" "y" 3 [Some true; Some false; Some false] ]
                       ltac:(repeat constructor))).
  reflexivity.
Defined.

(** ** [toggleCheck] and the statistics *)

(** A habit seen on another day than the toggled one. *)
Lemma toggleCheck_other_day habitId dayIndex (hs : list Habit) i :
  i <> dayIndex ->
  (fun h => JS.truthy (JS.get (checks h) i)) <$> toggleCheck habitId dayIndex hs
  = (fun h => JS.truthy (JS.get (checks h) i)) <$> hs.
Proof.
  intros Hne. unfold toggleCheck. rewrite <- list_fmap_compose. apply list_fmap_ext.
  intros j h _. simpl. destruct (negb (String.eqb (id h) habitId)); [done|].
  simpl. by rewrite get_set_ne.
Qed.

Lemma doneCount_day (hs hs' : list Habit) i acc :
  (fun h => JS.truthy (JS.get (checks h) i)) <$> hs
  = (fun h => JS.truthy (JS.get (checks h) i)) <$> hs' ->
  fold_left (fun acc h => (acc + (if JS.truthy (JS.get (checks h) i) then 1 else 0))%Z) hs acc
  = fold_left (fun acc h => (acc + (if JS.truthy (JS.get (checks h) i) then 1 else 0))%Z) hs' acc.
Proof.
  revert hs' acc. induction hs as [|h hs IH]; intros [|h' hs'] acc H; try done.
  simpl in H. injection H as Hc H. simpl. rewrite Hc. by apply IH.
Qed.

Lemma count_truthy_flip (a : JS.array bool) i b :
  a !! i = Some (Some b) ->
  JS.count_truthy (<[i := Some (negb b)]> a)
  = (JS.count_truthy a + (if b then -1 else 1))%Z.
Proof.
  intros Hi. rewrite <- (take_drop_middle a i (Some b) Hi) at 2.
  rewrite <- (take_drop_middle a i (Some b) Hi) at 1.
  assert (Hlen : length (take i a) = i).
  { rewrite length_take. apply lookup_lt_Some in Hi. lia. }
  rewrite <- Hlen at 1. rewrite insert_app_r_alt, Nat.sub_diag by lia. simpl.
  rewrite !count_truthy_app, !count_truthy_cons. destruct b; simpl; lia.
Qed.

(** X15: a [toggleCheck] leaves the statistics of every other day as
    they are; with distinct identifiers, toggling a day that holds the
    boolean [b] of a habit of the list changes the done count of that
    day and the completed total by one: up when [b] is [false], down
    when it is [true]. *)
Theorem X15_toggleCheck_statistics (habitId : string) (dayIndex : nat) (hs : list Habit) :
  (forall i, i <> dayIndex ->
     dayStat (toggleCheck habitId dayIndex hs) i = dayStat hs i) /\
  (forall j h (b : bool),
     NoDup (id <$> hs) -> hs !! j = Some h -> id h = habitId ->
     checks h !! dayIndex = Some (Some b) ->
     Stat.done (dayStat (toggleCheck habitId dayIndex hs) dayIndex)
       = (Stat.done (dayStat hs dayIndex) + (if b then -1 else 1))%Z /\
     totalActualChecks (toggleCheck habitId dayIndex hs)
       = (totalActualChecks hs + (if b then -1 else 1))%Z).
Proof.
  split.
  - intros i Hne. unfold dayStat.
    rewrite (doneCount_day _ hs i 0 (toggleCheck_other_day habitId dayIndex hs i Hne)).
    by rewrite toggleCheck_length.
  - intros j h b Hnd Hj Hid Hb.
    rewrite (toggleCheck_unique _ _ _ _ _ Hnd Hj Hid).
    rewrite !dayStat_done.
    rewrite (get_lookup _ _ _ Hb). cbn [JS.truthy].
    rewrite set_lt by (by eapply lookup_lt_Some).
    pose proof (take_drop_middle hs j h Hj) as Hsplit.
    assert (Hlen : length (take j hs) = j).
    { rewrite length_take. apply lookup_lt_Some in Hj. lia. }
    revert Hsplit Hlen. generalize (take j hs) (drop (S j) hs).
    intros l1 l2 <- <-. clear Hnd Hj.
    rewrite insert_app_r_alt, Nat.sub_diag by lia. simpl.
    rewrite !doneOn_app, !doneOn_cons, !totalActualChecks_app, !totalActualChecks_cons.
    simpl. rewrite count_truthy_flip by done.
    rewrite (get_lookup _ _ _ Hb).
    rewrite (get_lookup _ dayIndex (Some (negb b)))
      by (apply list_lookup_insert_eq; by eapply lookup_lt_Some).
    destruct b; simpl; lia.
Qed.

(** X15 on the second of two habits, unchecked on the toggled day. *)
Lemma X15_toggleCheck_statistics_witness :
  totalActualChecks
    (toggleCheck "b" 1 [ mkHabit "a" "A" "x" 3 [Some true; Some true; Some false];
                         mkHabit "b" "B" "y" 3 [Some false; Some false; Some false] ])
  = 3%Z.
Proof.
  destruct (X15_toggleCheck_statistics "b" 1
              [ mkHabit "a" "A" "x" 3 [Some true; Some true; Some false];
                mkHabit "b" "B" "y" 3 [Some false; Some false; Some false] ]) as [_ H].
  destruct (H 1 (mkHabit "b" "B" "y" 3 [Some false; Some false; Some false]) false)
    as [_ Htotal]; [|reflexivity|reflexivity|reflexivity|].
  - apply NoDup_cons. split; [|apply NoDup_singleton].
    intros Hin. apply list_elem_of_singleton in Hin. discriminate Hin.
  - rewrite Htotal. reflexivity.
Defined.

(** ** Order of the writes *)

Section set_order.
Context {A : Type}.
Implicit Types (a : JS.array A) (v w : A).

Lemma lookup_set i v a k :
  JS.set i v a !! k =
    if decide (k = i) then Some (Some v)
    else if decide (k < Nat.max (length a) (S i)) then Some (JS.get a k)
    else None.
Proof.
  case_decide as Hk; [subst; apply lookup_set_eq|].
  case_decide as Hlt.
  - destruct (decide (k < length a)) as [Hin|Hout].
    + destruct (lookup_lt_is_Some_2 a k Hin) as [c Hc].
      rewrite (get_lookup _ _ _ Hc), <- Hc.
      unfold JS.set. case_decide; [by apply list_lookup_insert_ne|by apply lookup_app_l].
    + rewrite get_ge by lia. rewrite set_ge by lia.
      rewrite lookup_app_r by lia. rewrite lookup_app_l by (rewrite length_replicate; lia).
      apply lookup_replicate_2. lia.
  - apply lookup_ge_None. rewrite length_set. lia.
Qed.

(** Writes to two different slots can be made in either order. *)
Lemma set_comm i j v w a :
  i <> j -> JS.set i v (JS.set j w a) = JS.set j w (JS.set i v a).
Proof.
  intros Hne. apply list_eq. intros k.
  rewrite !lookup_set, !length_set.
  destruct (decide (k = i)) as [->|Hki].
  - rewrite decide_False by done. rewrite decide_True by lia. by rewrite get_set_eq.
  - destruct (decide (k = j)) as [->|Hkj].
    + rewrite decide_True by lia. by rewrite get_set_eq.
    + rewrite !get_set_ne by done.
      repeat case_decide; try done; lia.
Qed.
End set_order.

(** X16: two calls of [toggleCheck] give the same habit list in
    either order, whatever their habit identifiers and day indices. *)
Theorem X16_toggleCheck_commutes (a b : string) (i j : nat) (hs : list Habit) :
  toggleCheck a i (toggleCheck b j hs) = toggleCheck b j (toggleCheck a i hs).
Proof.
  unfold toggleCheck. rewrite <- !list_fmap_compose. apply list_fmap_ext.
  intros k h _. simpl.
  destruct (String.eqb (id h) a) eqn:Ha, (String.eqb (id h) b) eqn:Hb;
    simpl; rewrite ?Ha, ?Hb; simpl; try done.
  destruct (decide (i = j)) as [->|Hne]; [done|].
  unfold with_checks. simpl. f_equal.
  rewrite !get_set_ne by done. by apply set_comm.
Qed.

(** X17: of two calls of [handleMentalChange] on the same day and
    field the later one decides the result, and two calls on different
    days, or on the two fields of one day, can be made in either
    order. *)
Theorem X17_mental_writes (ms : JS.array MentalState) :
  (forall i field v1 v2,
     handleMentalChange i field v2 (handleMentalChange i field v1 ms)
     = handleMentalChange i field v2 ms) /\
  (forall i j f g v w, i <> j \/ f <> g ->
     handleMentalChange i f v (handleMentalChange j g w ms)
     = handleMentalChange j g w (handleMentalChange i f v ms)).
Proof.
  split.
  - intros i field v1 v2. unfold handleMentalChange.
    rewrite get_set_eq, set_set. simpl. f_equal.
    by destruct field.
  - intros i j f g v w Hne. unfold handleMentalChange.
    destruct (decide (i = j)) as [->|Hij].
    + rewrite !get_set_eq, !set_set. simpl. f_equal.
      destruct f, g; try done; by destruct Hne.
    + rewrite !get_set_ne by done. by apply set_comm.
Qed.

(** X17 on a fresh month: the second of two mood inputs is stored. *)
Lemma X17_mental_writes_witness :
  handleMentalChange 2 Mood "4" (handleMentalChange 5 Mood "9" (generateEmptyMentalState 28))
  = handleMentalChange 5 Mood "9" (handleMentalChange 2 Mood "4" (generateEmptyMentalState 28)).
Proof.
  apply (proj2 (X17_mental_writes (generateEmptyMentalState 28))). left. lia.
Defined.

(** ** What the inputs show and read *)

(** X18: the text that a mood or motivation input shows for a stored
    number between 0 and 10 is read back as that number; so writing
    what the input shows stores what was stored. *)
Theorem X18_input_value_reads_back :
  (forall n, (0 <= n <= 10)%Z -> numVal (inputValue n) = n) /\
  (forall value, numVal (inputValue (numVal value)) = numVal value).
Proof.
  assert (H : forall n, (0 <= n <= 10)%Z -> numVal (inputValue n) = n).
  { intros n Hn. unfold inputValue. destruct (Z.eqb_spec n 0) as [->|Hne]; [done|].
    rewrite (numVal_parsed _ n (parseInt_pretty n)).
    destruct (Z.ltb_spec n 0); [lia|]. destruct (Z.ltb_spec 10 n); lia. }
  split; [exact H|]. intros value. apply H, numVal_bounds.
Qed.

(** X18 on the stored number 7. *)
Lemma X18_input_value_reads_back_witness : numVal (inputValue 7) = 7%Z.
Proof. apply (proj1 X18_input_value_reads_back). lia. Defined.

(** The digits of a decimal string followed by a character that is
    not a decimal digit. *)
Lemma digits_decimal_then s c r acc n :
  decimal s acc = Some n -> JS.digit_value 10 c = None ->
  fold_left (fun acc d => acc * 10 + d)%Z (JS.digits 10 (s +:+ String c r)) acc = n.
Proof.
  intros H Hc. revert acc H. induction s as [|c0 s IH]; intros acc H; simpl in *.
  - rewrite Hc. simpl. congruence.
  - destruct (JS.digit_value 10 c0) as [d|]; [|done]. simpl. by apply IH.
Qed.

Lemma parseInt_radix_decimal_then (sign : Z) c0 r0 c r n :
  decimal (String c0 r0) 0 = Some n -> JS.digit_value 10 c = None ->
  (String c0 r0 = "0" -> c <> "x"%char /\ c <> "X"%char) ->
  (let '(R, s3) :=
     match String c0 (r0 +:+ String c r) with
     | String "0" (String "x" r1) => (16%Z, r1)
     | String "0" (String "X" r1) => (16%Z, r1)
     | _ => (10%Z, String c0 (r0 +:+ String c r))
     end in
   match JS.digits R s3 with
   | [] => None
   | ds => Some (sign * fold_left (fun acc d => acc * R + d) ds 0)%Z
   end) = Some (sign * n)%Z.
Proof.
  intros H Hc Hx. pose proof (digits_decimal_then _ c r _ _ H Hc) as Hval.
  simpl in H. destruct (JS.digit_value 10 c0) as [d|] eqn:Hc0; [|done].
  assert (Hradix :
    match String c0 (r0 +:+ String c r) with
    | String "0" (String "x" r1) => (16%Z, r1)
    | String "0" (String "X" r1) => (16%Z, r1)
    | _ => (10%Z, String c0 (r0 +:+ String c r))
    end = (10%Z, String c0 (r0 +:+ String c r))).
  { destruct r0 as [|c1 r1].
    - simpl. destruct (Ascii.eqb_spec c0 "0") as [->|Hne0].
      + destruct (Hx eq_refl) as [Hx1 Hx2].
        destruct c as [[] [] [] [] [] [] [] []]; try done.
      + digit_cases Hc0; try done.
    - simpl in H. destruct (JS.digit_value 10 c1) as [d1|] eqn:Hc1; [|done].
      digit_cases Hc0; digit_cases Hc1; reflexivity. }
  rewrite Hradix.
  change (String c0 r0 +:+ String c r) with (String c0 (r0 +:+ String c r)) in Hval.
  simpl JS.digits in *. rewrite Hc0 in *. by rewrite Hval.
Qed.

Lemma parseInt_decimal_then s c r n :
  s <> "" -> decimal s 0 = Some n -> JS.digit_value 10 c = None ->
  (s = "0" -> c <> "x"%char /\ c <> "X"%char) ->
  JS.parseInt (s +:+ String c r) = Some n /\
  JS.parseInt ("-" +:+ s +:+ String c r) = Some (- n)%Z.
Proof.
  destruct s as [|c0 r0]; [done|]. intros _ H Hc Hx.
  assert (exists d, JS.digit_value 10 c0 = Some d) as [d Hc0].
  { simpl in H. destruct (JS.digit_value 10 c0); [by eexists|done]. }
  split.
  - unfold JS.parseInt.
    change (String c0 r0 +:+ String c r) with (String c0 (r0 +:+ String c r)).
    rewrite (trimStart_digit _ _ _ Hc0).
    assert (Hsign :
      match String c0 (r0 +:+ String c r) with
      | String "-" r1 => ((-1)%Z, r1)
      | String "+" r1 => (1%Z, r1)
      | _ => (1%Z, String c0 (r0 +:+ String c r))
      end = (1%Z, String c0 (r0 +:+ String c r))).
    { digit_cases Hc0; reflexivity. }
    rewrite Hsign.
    rewrite (parseInt_radix_decimal_then 1 _ _ _ _ _ H Hc Hx). f_equal; lia.
  - unfold JS.parseInt.
    change ("-" +:+ String c0 r0 +:+ String c r)
      with (String "-" (String c0 (r0 +:+ String c r))).
    unfold JS.trimStart. cbn [String.length JS.trimStart_aux].
    rewrite white_prefix_minus.
    rewrite (parseInt_radix_decimal_then (-1) _ _ _ _ _ H Hc Hx). f_equal; lia.
Qed.

Lemma pretty_N_not_zero (x : N) : (0 < x)%N -> pretty x <> "0".
Proof.
  intros Hx. unfold pretty, pretty_N. rewrite decide_False by lia.
  by apply pretty_N_go_ne_0.
Qed.

(** X19: [parseInt] reads the decimal numeral of an integer that is
    followed by a character other than a decimal digit, whatever comes
    after it (for the numeral 0, a character other than [x] and [X]);
    the number stored for such an input is that integer clamped to
    [0, 10]. *)
Theorem X19_number_followed_by_text (z : Z) (c : ascii) (r : string) :
  JS.digit_value 10 c = None ->
  (z = 0%Z -> c <> "x"%char /\ c <> "X"%char) ->
  JS.parseInt (pretty z +:+ String c r) = Some z /\
  numVal (pretty z +:+ String c r) = (if z <? 0 then 0 else if 10 <? z then 10 else z)%Z.
Proof.
  intros Hc Hx.
  assert (Hparse : JS.parseInt (pretty z +:+ String c r) = Some z).
  { unfold pretty, pretty_Z. destruct z as [|p|p].
    - apply (parseInt_decimal_then "0" c r 0); try done. by intros _; apply Hx.
    - destruct (pretty_N_decimal (N.pos p)) as [Hne Hd].
      apply (parseInt_decimal_then (pretty (N.pos p)) c r (Z.pos p)); try done.
      intros H0. by destruct (pretty_N_not_zero (N.pos p)).
    - destruct (pretty_N_decimal (N.pos p)) as [Hne Hd].
      change (("-" +:+ pretty p) +:+ String c r)
        with ("-" +:+ pretty (N.pos p) +:+ String c r).
      apply (parseInt_decimal_then (pretty (N.pos p)) c r (Z.pos p)); try done.
      intros H0. by destruct (pretty_N_not_zero (N.pos p)). }
  split; [done|]. by apply numVal_parsed.
Qed.

(** X19 on the inputs ["7.5"] and ["12abc"]. *)
Lemma X19_number_followed_by_text_witness :
  numVal "7.5" = 7%Z /\ numVal "12abc" = 10%Z.
Proof.
  split.
  - apply (X19_number_followed_by_text 7 "." "5"); [reflexivity|discriminate].
  - apply (X19_number_followed_by_text 12 "a" "bc"); [reflexivity|discriminate].
Defined.

(** ** Week grouping for any day count *)

Lemma weeks_none : weeks 0 = [].
Proof. unfold weeks. by apply weeks_loop_done. Qed.

Lemma weeks_one d :
  0 < d <= 7 -> weeks d = [ mkWeek "Week 1" (seq 0 7) ].
Proof.
  intros Hd. unfold weeks.
  rewrite weeks_loop_next by lia. simpl.
  by rewrite weeks_loop_done by lia.
Qed.

Lemma weeks_two d :
  7 < d <= 14 -> weeks d = [ mkWeek "Week 1" (seq 0 7); mkWeek "Week 2" (seq 7 7) ].
Proof.
  intros Hd. unfold weeks.
  rewrite weeks_loop_next by lia. simpl.
  rewrite weeks_loop_next by lia. simpl.
  by rewrite weeks_loop_done by lia.
Qed.

Lemma weeks_three d :
  14 < d <= 21 ->
  weeks d = [ mkWeek "Week 1" (seq 0 7); mkWeek "Week 2" (seq 7 7);
              mkWeek "Week 3" (seq 14 7) ].
Proof.
  intros Hd. unfold weeks.
  rewrite weeks_loop_next by lia. simpl.
  rewrite weeks_loop_next by lia. simpl.
  rewrite weeks_loop_next by lia. simpl.
  by rewrite weeks_loop_done by lia.
Qed.

(** X20: for every day count, [weeks] has at most four buckets, each
    of the first three holding seven day indices, and the buckets in
    order make up [0, 1, ..., n - 1] for an [n] that is the day count
    when it is above 21, and the day count rounded up to a multiple of
    7 otherwise: every day of the month is rendered, and with 21 days
    or fewer that are not whole weeks so are indices past the month. *)
Theorem X20_weeks_any_day_count (daysInMonth : nat) :
  length (weeks daysInMonth) <= 4 /\
  (forall k w, k < 3 -> weeks daysInMonth !! k = Some w -> days w = seq (7 * k) 7) /\
  renderedDays daysInMonth =
    seq 0 (if decide (21 < daysInMonth) then daysInMonth
           else 7 * ((daysInMonth + 6) / 7)) /\
  (forall i, i < daysInMonth -> i ∈ renderedDays daysInMonth) /\
  (daysInMonth <= 21 -> daysInMonth mod 7 <> 0 ->
     daysInMonth ∈ renderedDays daysInMonth).
Proof.
  assert (Hcases : daysInMonth = 0 \/ 0 < daysInMonth <= 7 \/ 7 < daysInMonth <= 14 \/
                   14 < daysInMonth <= 21 \/ 21 < daysInMonth) by lia.
  assert (Hweeks :
    weeks daysInMonth =
      ((fun k => mkWeek ("Week " +:+ pretty (S k)) (seq (7 * k) 7))
         <$> seq 0 (Nat.min 3 ((daysInMonth + 6) / 7)))
      ++ (if decide (21 < daysInMonth)
          then [ mkWeek "Week 4" (seq 21 (daysInMonth - 21)) ] else [])).
  { destruct Hcases as [-> | [H | [H | [H | H]]]].
    - by rewrite weeks_none.
    - rewrite weeks_one by done. rewrite decide_False by lia.
      replace ((daysInMonth + 6) / 7) with 1 by (apply Nat.div_unique with (daysInMonth - 1); lia).
      done.
    - rewrite weeks_two by done. rewrite decide_False by lia.
      replace ((daysInMonth + 6) / 7) with 2 by (apply Nat.div_unique with (daysInMonth - 8); lia).
      done.
    - rewrite weeks_three by done. rewrite decide_False by lia.
      replace ((daysInMonth + 6) / 7) with 3 by (apply Nat.div_unique with (daysInMonth - 15); lia).
      done.
    - rewrite weeks_four by done. rewrite decide_True by done.
      assert (3 <= (daysInMonth + 6) / 7) by (apply Nat.div_le_lower_bound; lia).
      replace (Nat.min 3 ((daysInMonth + 6) / 7)) with 3 by lia. done. }
  assert (Hrendered :
    renderedDays daysInMonth =
      seq 0 (if decide (21 < daysInMonth) then daysInMonth
             else 7 * ((daysInMonth + 6) / 7))).
  { destruct Hcases as [-> | [H | [H | [H | H]]]].
    - unfold renderedDays. by rewrite weeks_none.
    - unfold renderedDays. rewrite weeks_one by done. rewrite decide_False by lia.
      replace ((daysInMonth + 6) / 7) with 1 by (apply Nat.div_unique with (daysInMonth - 1); lia).
      done.
    - unfold renderedDays. rewrite weeks_two by done. rewrite decide_False by lia.
      replace ((daysInMonth + 6) / 7) with 2 by (apply Nat.div_unique with (daysInMonth - 8); lia).
      done.
    - unfold renderedDays. rewrite weeks_three by done. rewrite decide_False by lia.
      replace ((daysInMonth + 6) / 7) with 3 by (apply Nat.div_unique with (daysInMonth - 15); lia).
      done.
    - rewrite decide_True by done. by apply renderedDays_four. }
  split; [|split; [|split; [done|split]]].
  - rewrite Hweeks, length_app, length_fmap, length_seq. case_decide; cbn [length]; lia.
  - intros k w Hk. rewrite Hweeks.
    destruct (decide (k < Nat.min 3 ((daysInMonth + 6) / 7))) as [Hlt|Hge].
    + rewrite lookup_app_l by (by rewrite length_fmap, length_seq).
      rewrite list_lookup_fmap, lookup_seq_lt by done. by intros [= <-].
    + rewrite lookup_app_r by (rewrite length_fmap, length_seq; lia).
      rewrite length_fmap, length_seq. case_decide as Hd; [|done].
      assert (3 <= (daysInMonth + 6) / 7) by (apply Nat.div_le_lower_bound; lia).
      intros Hl. apply lookup_lt_Some in Hl. cbn [length] in Hl. lia.
  - intros i Hi. rewrite Hrendered. apply elem_of_seq. case_decide; [lia|].
    pose proof (Nat.div_mod (daysInMonth + 6) 7 ltac:(lia)).
    pose proof (Nat.mod_upper_bound (daysInMonth + 6) 7 ltac:(lia)). lia.
  - intros Hle Hmod. rewrite Hrendered. apply elem_of_seq. rewrite decide_False by lia.
    pose proof (Nat.div_mod daysInMonth 7 ltac:(lia)).
    pose proof (Nat.mod_upper_bound daysInMonth 7 ltac:(lia)).
    pose proof (Nat.div_mod (daysInMonth + 6) 7 ltac:(lia)).
    pose proof (Nat.mod_upper_bound (daysInMonth + 6) 7 ltac:(lia)). lia.
Qed.

(** X20 on a day count of 10: two buckets, and index 10 to 13 rendered
    past the month. *)
Lemma X20_weeks_any_day_count_witness :
  renderedDays 10 = seq 0 14 /\ 10 ∈ renderedDays 10.
Proof.
  destruct (X20_weeks_any_day_count 10) as (_ & _ & Hr & _ & Hpast).
  split; [exact Hr|]. apply Hpast; [lia|]. discriminate.
Defined.

(** ** Renaming, fresh months, and saving *)

(** X21: with distinct identifiers, [saveEditing] in edit mode on a
    habit of the list whose identifier is not empty puts the edited
    name and icon on that habit, changes no other habit, and closes
    edit mode. *)
Theorem X21_saveEditing_renames_one (st : Ui.state) (j : nat) (h : Habit) :
  Ui.habits st !! j = Some h ->
  Ui.editingHabitId st = Some (id h) -> id h <> "" ->
  NoDup (id <$> Ui.habits st) ->
  Ui.habits (Ui.saveEditing st) =
    <[j := {| id := id h; name := Ui.editName st; icon := Ui.editIcon st;
              goal := goal h; checks := checks h |}]> (Ui.habits st) /\
  Ui.editingHabitId (Ui.saveEditing st) = None.
Proof.
  intros Hj He Hne Hnd. split.
  - rewrite (saveEditing_habits st (id h) He Hne). apply list_eq. intros k.
    rewrite list_lookup_fmap. destruct (decide (j = k)) as [<-|Hjk].
    + rewrite list_lookup_insert_eq by (by eapply lookup_lt_Some).
      rewrite Hj. simpl. by rewrite String.eqb_refl.
    + rewrite list_lookup_insert_ne by done.
      destruct (Ui.habits st !! k) as [h'|] eqn:Hk; [|done]. simpl.
      destruct (String.eqb_spec (id h') (id h)) as [Heq|_]; [|done].
      exfalso. apply Hjk. eapply NoDup_lookup; [exact Hnd| |].
      * rewrite list_lookup_fmap, Hj. done.
      * rewrite list_lookup_fmap, Hk. simpl. by rewrite Heq.
  - unfold Ui.saveEditing. rewrite He.
    apply String.eqb_neq in Hne. by rewrite Hne.
Qed.

(** X21 on the second of two habits, renamed to "Run". *)
Lemma X21_saveEditing_renames_one_witness :
  Ui.habits
    (Ui.saveEditing
       (Ui.mk 3 [ mkHabit "a" "A" "x" 3 (JS.fill 3 false);
                  mkHabit "b" "B" "y" 3 (JS.fill 3 true) ]
              (generateEmptyMentalState 3) (Some "b") "Run" "r" None))
  = [ mkHabit "a" "A" "x" 3 (JS.fill 3 false); mkHabit "b" "Run" "r" 3 (JS.fill 3 true) ].
Proof.
  refine (proj1 (X21_saveEditing_renames_one
                   (Ui.mk 3 [ mkHabit "a" "A" "x" 3 (JS.fill 3 false);
                              mkHabit "b" "B" "y" 3 (JS.fill 3 true) ]
                          (generateEmptyMentalState 3) (Some "b") "Run" "r" None)
                   1 (mkHabit "b" "B" "y" 3 (JS.fill 3 true)) eq_refl eq_refl _ _)).
  - discriminate.
  - simpl. apply NoDup_cons. split; [|apply NoDup_singleton].
    intros Hin. apply list_elem_of_singleton in Hin. discriminate Hin.
Defined.

Lemma doneOn_unchecked (hs : list Habit) i :
  Forall (fun h => exists n, checks h = JS.fill n false) hs -> doneOn hs i = 0%Z.
Proof.
  induction 1 as [|h hs [n Hn] _ IH]; [done|].
  by rewrite doneOn_cons, IH, Hn, get_fill_false.
Qed.

Lemma totalActualChecks_unchecked (hs : list Habit) :
  Forall (fun h => exists n, checks h = JS.fill n false) hs -> totalActualChecks hs = 0%Z.
Proof.
  induction 1 as [|h hs [n Hn] _ IH]; [done|].
  by rewrite totalActualChecks_cons, IH, Hn, count_truthy_fill_false.
Qed.

(** X22: a month with no stored entry starts with nothing done: the
    completed total is 0 and every day has a done count of 0 and a
    not-done count equal to the number of habits; the habits have the
    identifiers of the previous month's habits, in order, or the ten
    distinct identifiers of the default template. *)
Theorem X22_fresh_month_is_unchecked (daysInMonth : nat) (prevStored : option MonthData)
    (hs : list Habit) (ms : JS.array MentalState) :
  loadMonth daysInMonth None prevStored = Some (hs, ms) ->
  totalActualChecks hs = 0%Z /\
  (forall i, Stat.done (dayStat hs i) = 0%Z /\
             Stat.notDone (dayStat hs i) = Z.of_nat (length hs)) /\
  match prevStored with
  | Some prevParsed => id <$> hs = id <$> habits prevParsed
  | None => id <$> hs = ["1"; "2"; "3"; "4"; "5"; "6"; "7"; "8"; "9"; "10"] /\
            NoDup (id <$> hs)
  end.
Proof.
  intros Hload.
  assert (Hfresh : Forall (fun h => exists n, checks h = JS.fill n false) hs).
  { unfold loadMonth in Hload. destruct prevStored as [prevParsed|];
      injection Hload as <- _.
    - apply Forall_fmap, Forall_forall. intros x _. by exists daysInMonth.
    - repeat (constructor; [by exists daysInMonth|]). constructor. }
  split; [by apply totalActualChecks_unchecked|]. split.
  - intros i. unfold dayStat. simpl.
    rewrite doneCount_fold, (doneOn_unchecked hs i Hfresh). split; lia.
  - unfold loadMonth in Hload. destruct prevStored as [prevParsed|];
      injection Hload as <- _.
    + rewrite <- list_fmap_compose. by apply list_fmap_ext.
    + split; [done|]. simpl.
      repeat (apply NoDup_cons; split;
        [intros Hin; repeat (apply elem_of_cons in Hin as [Hin|Hin]; [discriminate Hin|]);
         by apply elem_of_nil in Hin|]).
      apply NoDup_nil. done.
Qed.

(** X22 on the first load of a 30-day month. *)
Lemma X22_fresh_month_is_unchecked_witness :
  exists hs ms,
    loadMonth 30 None None = Some (hs, ms) /\ totalActualChecks hs = 0%Z.
Proof.
  eexists _, _. split; [reflexivity|].
  exact (proj1 (X22_fresh_month_is_unchecked 30 None _ _ eq_refl)).
Defined.


